(** * InvestDAO: the Move module [dao_addr::investdaov2]

    A shallow embedding of the on-chain governance-and-treasury module
    (proposal lifecycle, treasury custody, governance-token accounting)
    and the properties of it that the specification states.

    Move values of type [u64], [u8] and [address] are natural numbers
    ([N]); arithmetic is checked, as in the Move VM, where an overflow or
    an underflow aborts the transaction.  Global storage is a record of
    finite maps from account addresses to resources.  An entry function is
    a function from the storage to a [result]: either the new storage or
    the abort that rolled the transaction back. *)

From Stdlib Require Import NArith Lia String List.
From stdpp Require Import gmap strings list fin_maps.

Open Scope N_scope.

(** ** Machine types *)

Abbreviation u64 := N (only parsing).
Abbreviation u8 := N (only parsing).
Abbreviation address := N (only parsing).

Definition MAX_U64 : N := 18446744073709551615.

(** ** Aborts and the result monad *)

(** How a transaction can abort in this module: an [assert!] of the module
    with its error code, the VM's arithmetic error, a [borrow_global] on an
    address without the resource, a [move_to] on an address that has it,
    the two aborts of [std::table] and the two aborts of
    [aptos_framework::coin] that the calls made here can raise. *)
Inductive abort : Type :=
| Abort (code : u64)
| ARITHMETIC_ERROR
| MISSING_DATA
| RESOURCE_ALREADY_EXISTS
| TABLE_NOT_FOUND
| TABLE_ALREADY_EXISTS
| COIN_STORE_NOT_PUBLISHED
| COIN_INSUFFICIENT_BALANCE.

Inductive result (A : Type) : Type :=
| Ok (a : A)
| Err (e : abort).

Arguments Ok {A} a.
Arguments Err {A} e.

Definition bind {A B : Type} (r : result A) (k : A -> result B) : result B :=
  match r with
  | Ok a => k a
  | Err e => Err e
  end.

(** [assert!(cond, code)] *)
Definition assert (cond : bool) (code : u64) : result unit :=
  if cond then Ok tt else Err (Abort code).

Notation "'do' x <- c ; k" := (bind c (fun x => k))
  (at level 10, x name, c at level 100, k at level 200).
Notation "'do' ' p <- c ; k" := (bind c (fun x => let 'p := x in k))
  (at level 10, p pattern, c at level 100, k at level 200).
Notation "'assert!' cond 'or' code ; k" := (bind (assert cond code) (fun _ => k))
  (at level 10, cond at level 100, code at level 100, k at level 200).

(** Checked [u64] arithmetic. *)
Definition add_u64 (a b : u64) : result u64 :=
  if a + b <=? MAX_U64 then Ok (a + b) else Err ARITHMETIC_ERROR.

Definition sub_u64 (a b : u64) : result u64 :=
  if b <=? a then Ok (a - b) else Err ARITHMETIC_ERROR.

Definition mul_u64 (a b : u64) : result u64 :=
  if a * b <=? MAX_U64 then Ok (a * b) else Err ARITHMETIC_ERROR.

(** ** Constants of the module *)

Definition MIN_VOTES : u64 := 10.
Definition VOTING_PERIOD : u64 := 604800.
Definition EXECUTION_DELAY : u64 := 86400.
Definition QUORUM_PERCENTAGE : u64 := 20.
Definition INITIAL_TOKEN_SUPPLY : u64 := 1000000.
Definition MIN_PROPOSAL_AMOUNT : u64 := 1000.
Definition PARTICIPATION_REWARD : u64 := 10.

Definition E_NOT_AUTHORIZED : u64 := 1001.
Definition E_PROPOSAL_NOT_OPEN : u64 := 1002.
Definition E_ALREADY_VOTED : u64 := 1003.
Definition E_VOTING_ENDED : u64 := 1004.
Definition E_INSUFFICIENT_BALANCE : u64 := 1005.
Definition E_PROPOSAL_NOT_READY : u64 := 1006.
Definition E_INSUFFICIENT_TOKENS : u64 := 1007.
Definition E_QUORUM_NOT_MET : u64 := 1008.
Definition E_PROPOSAL_ALREADY_EXECUTED : u64 := 1009.
Definition E_INSUFFICIENT_FUNDS : u64 := 1010.
Definition E_DAO_PAUSED : u64 := 1011.
Definition E_PROPOSAL_TOO_SMALL : u64 := 1012.
Definition E_INVALID_CATEGORY : u64 := 1013.

Definition CATEGORY_FUNDING : u8 := 0.
Definition CATEGORY_GOVERNANCE : u8 := 1.
Definition CATEGORY_EMERGENCY : u8 := 2.

(** ** Events *)

Inductive Event : Type :=
| ProposalCreatedEvent (proposal_id : u64) (proposer : address)
    (title : string) (category : u8) (requested_amount : u64)
| VoteCastEvent (proposal_id : u64) (voter : address) (vote : bool)
    (voting_power : u64) (reward_earned : u64)
| ProposalExecutedEvent (proposal_id : u64) (result_code : u8)
    (amount_transferred : u64)
| FundsDepositedEvent (depositor : address) (amount : u64)
| TokensStakedEvent (staker : address) (amount : u64)
| TokensDistributedEvent (recipient : address) (amount : u64) (reason : string)
| EmergencyActionEvent (admin : address) (action : string) (paused : bool).

(** ** Resources *)

Record GovernanceToken : Type := {
  balance : u64;
  staked_balance : u64;
  last_claim_time : u64;
  total_earned : u64;
}.

Record InvestmentProposal : Type := {
  id : u64;
  title : string;
  description : string;
  category : u8;
  recipient : address;
  requested_amount : u64;
  yes_votes : u64;
  no_votes : u64;
  proposer : address;
  creation_time : u64;
  voting_end_time : u64;
  execution_time : u64;
  status : u8;
  voters : gmap N N;
  executed : bool;
}.

(** [treasury_signer_cap] is the account the signer capability stands for. *)
Record DAOTreasury : Type := {
  proposals : gmap N InvestmentProposal;
  proposal_count : u64;
  total_funds : u64;
  total_governance_tokens : u64;
  staked_tokens : u64;
  admin : address;
  governance_threshold : u64;
  paused : bool;
  treasury_signer_cap : address;
}.

Record DAOMember : Type := {
  governance_tokens : GovernanceToken;
  proposals_created : u64;
  votes_cast : u64;
  member_since : u64;
  reputation_score : u64;
}.

(** Global storage: the [DAOTreasury] and [DAOMember] resources by account,
    the [CoinStore<AptosCoin>] balance of every registered account, and the
    events emitted so far. *)
Record State : Type := {
  treasuries : gmap N DAOTreasury;
  members : gmap N DAOMember;
  coin_store : gmap N N;
  events : list Event;
}.

(** ** Field updates

    Move writes a field through a mutable reference; here each written
    field has an update function that rebuilds the record. *)

Definition set_balance (g : GovernanceToken) (v : u64) : GovernanceToken :=
  {| balance := v; staked_balance := staked_balance g;
     last_claim_time := last_claim_time g; total_earned := total_earned g |}.

Definition set_staked_balance (g : GovernanceToken) (v : u64) : GovernanceToken :=
  {| balance := balance g; staked_balance := v;
     last_claim_time := last_claim_time g; total_earned := total_earned g |}.

Definition set_total_earned (g : GovernanceToken) (v : u64) : GovernanceToken :=
  {| balance := balance g; staked_balance := staked_balance g;
     last_claim_time := last_claim_time g; total_earned := v |}.

Definition set_governance_tokens (m : DAOMember) (g : GovernanceToken) : DAOMember :=
  {| governance_tokens := g; proposals_created := proposals_created m;
     votes_cast := votes_cast m; member_since := member_since m;
     reputation_score := reputation_score m |}.

Definition set_proposals_created (m : DAOMember) (v : u64) : DAOMember :=
  {| governance_tokens := governance_tokens m; proposals_created := v;
     votes_cast := votes_cast m; member_since := member_since m;
     reputation_score := reputation_score m |}.

Definition set_votes_cast (m : DAOMember) (v : u64) : DAOMember :=
  {| governance_tokens := governance_tokens m;
     proposals_created := proposals_created m;
     votes_cast := v; member_since := member_since m;
     reputation_score := reputation_score m |}.

Definition set_reputation_score (m : DAOMember) (v : u64) : DAOMember :=
  {| governance_tokens := governance_tokens m;
     proposals_created := proposals_created m;
     votes_cast := votes_cast m; member_since := member_since m;
     reputation_score := v |}.

Definition set_yes_votes (p : InvestmentProposal) (v : u64) : InvestmentProposal :=
  {| id := id p; title := title p; description := description p;
     category := category p; recipient := recipient p;
     requested_amount := requested_amount p;
     yes_votes := v; no_votes := no_votes p; proposer := proposer p;
     creation_time := creation_time p; voting_end_time := voting_end_time p;
     execution_time := execution_time p; status := status p;
     voters := voters p; executed := executed p |}.

Definition set_no_votes (p : InvestmentProposal) (v : u64) : InvestmentProposal :=
  {| id := id p; title := title p; description := description p;
     category := category p; recipient := recipient p;
     requested_amount := requested_amount p;
     yes_votes := yes_votes p; no_votes := v; proposer := proposer p;
     creation_time := creation_time p; voting_end_time := voting_end_time p;
     execution_time := execution_time p; status := status p;
     voters := voters p; executed := executed p |}.

Definition set_status (p : InvestmentProposal) (v : u8) : InvestmentProposal :=
  {| id := id p; title := title p; description := description p;
     category := category p; recipient := recipient p;
     requested_amount := requested_amount p;
     yes_votes := yes_votes p; no_votes := no_votes p; proposer := proposer p;
     creation_time := creation_time p; voting_end_time := voting_end_time p;
     execution_time := execution_time p; status := v;
     voters := voters p; executed := executed p |}.

Definition set_voters (p : InvestmentProposal) (v : gmap N N) : InvestmentProposal :=
  {| id := id p; title := title p; description := description p;
     category := category p; recipient := recipient p;
     requested_amount := requested_amount p;
     yes_votes := yes_votes p; no_votes := no_votes p; proposer := proposer p;
     creation_time := creation_time p; voting_end_time := voting_end_time p;
     execution_time := execution_time p; status := status p;
     voters := v; executed := executed p |}.

Definition set_executed (p : InvestmentProposal) (v : bool) : InvestmentProposal :=
  {| id := id p; title := title p; description := description p;
     category := category p; recipient := recipient p;
     requested_amount := requested_amount p;
     yes_votes := yes_votes p; no_votes := no_votes p; proposer := proposer p;
     creation_time := creation_time p; voting_end_time := voting_end_time p;
     execution_time := execution_time p; status := status p;
     voters := voters p; executed := v |}.

Definition set_proposals (t : DAOTreasury) (v : gmap N InvestmentProposal) : DAOTreasury :=
  {| proposals := v; proposal_count := proposal_count t;
     total_funds := total_funds t;
     total_governance_tokens := total_governance_tokens t;
     staked_tokens := staked_tokens t; admin := admin t;
     governance_threshold := governance_threshold t; paused := paused t;
     treasury_signer_cap := treasury_signer_cap t |}.

Definition set_proposal_count (t : DAOTreasury) (v : u64) : DAOTreasury :=
  {| proposals := proposals t; proposal_count := v;
     total_funds := total_funds t;
     total_governance_tokens := total_governance_tokens t;
     staked_tokens := staked_tokens t; admin := admin t;
     governance_threshold := governance_threshold t; paused := paused t;
     treasury_signer_cap := treasury_signer_cap t |}.

Definition set_total_funds (t : DAOTreasury) (v : u64) : DAOTreasury :=
  {| proposals := proposals t; proposal_count := proposal_count t;
     total_funds := v;
     total_governance_tokens := total_governance_tokens t;
     staked_tokens := staked_tokens t; admin := admin t;
     governance_threshold := governance_threshold t; paused := paused t;
     treasury_signer_cap := treasury_signer_cap t |}.

Definition set_staked_tokens (t : DAOTreasury) (v : u64) : DAOTreasury :=
  {| proposals := proposals t; proposal_count := proposal_count t;
     total_funds := total_funds t;
     total_governance_tokens := total_governance_tokens t;
     staked_tokens := v; admin := admin t;
     governance_threshold := governance_threshold t; paused := paused t;
     treasury_signer_cap := treasury_signer_cap t |}.

Definition set_paused (t : DAOTreasury) (v : bool) : DAOTreasury :=
  {| proposals := proposals t; proposal_count := proposal_count t;
     total_funds := total_funds t;
     total_governance_tokens := total_governance_tokens t;
     staked_tokens := staked_tokens t; admin := admin t;
     governance_threshold := governance_threshold t; paused := v;
     treasury_signer_cap := treasury_signer_cap t |}.

Definition set_treasuries (s : State) (v : gmap N DAOTreasury) : State :=
  {| treasuries := v; members := members s;
     coin_store := coin_store s; events := events s |}.

Definition set_members (s : State) (v : gmap N DAOMember) : State :=
  {| treasuries := treasuries s; members := v;
     coin_store := coin_store s; events := events s |}.

Definition set_coin_store (s : State) (v : gmap N N) : State :=
  {| treasuries := treasuries s; members := members s;
     coin_store := v; events := events s |}.

(** [event::emit] appends to the log. *)
Definition emit (e : Event) (s : State) : State :=
  {| treasuries := treasuries s; members := members s;
     coin_store := coin_store s; events := events s ++ [e] |}.

(** ** The framework calls the module makes

    [std::table] and [aptos_framework::coin] are libraries the module
    imports; they are modelled by what their calls do to the storage and
    by when they abort.  A coin store is its balance; frozen stores are
    not modelled. *)

(** [borrow_global] and [borrow_global_mut]: abort when the resource is
    not published at the address. *)
Definition borrow_global {A : Type} (store : gmap N A) (a : address) : result A :=
  match store !! a with
  | Some r => Ok r
  | None => Err MISSING_DATA
  end.

(** [move_to]: aborts when the resource is already published. *)
Definition move_to {A : Type} (store : gmap N A) (a : address) (r : A)
  : result (gmap N A) :=
  match store !! a with
  | Some _ => Err RESOURCE_ALREADY_EXISTS
  | None => Ok (<[a := r]> store)
  end.

(** [table::borrow] and [table::borrow_mut]: abort on a missing key. *)
Definition table_borrow {A : Type} (t : gmap N A) (k : N) : result A :=
  match t !! k with
  | Some v => Ok v
  | None => Err TABLE_NOT_FOUND
  end.

(** [table::add]: aborts on a key already present. *)
Definition table_add {A : Type} (t : gmap N A) (k : N) (v : A)
  : result (gmap N A) :=
  match t !! k with
  | Some _ => Err TABLE_ALREADY_EXISTS
  | None => Ok (<[k := v]> t)
  end.

Definition table_contains {A : Type} (t : gmap N A) (k : N) : bool :=
  match t !! k with
  | Some _ => true
  | None => false
  end.

(** [coin::register<AptosCoin>]: publishes an empty coin store unless the
    account has one. *)
Definition coin_register (coins : gmap N N) (a : address) : gmap N N :=
  match coins !! a with
  | Some _ => coins
  | None => <[a := 0]> coins
  end.

(** [coin::withdraw<AptosCoin>(signer, amount)]: the signer's account must
    have a coin store holding at least [amount]. *)
Definition coin_withdraw (coins : gmap N N) (a : address) (amount : u64)
  : result (gmap N N) :=
  match coins !! a with
  | None => Err COIN_STORE_NOT_PUBLISHED
  | Some b =>
      if amount <=? b then Ok (<[a := b - amount]> coins)
      else Err COIN_INSUFFICIENT_BALANCE
  end.

(** [coin::deposit<AptosCoin>(addr, coins)]: the receiving account must
    have a coin store; the balance is a [u64]. *)
Definition coin_deposit (coins : gmap N N) (a : address) (amount : u64)
  : result (gmap N N) :=
  match coins !! a with
  | None => Err COIN_STORE_NOT_PUBLISHED
  | Some b => do b' <- add_u64 b amount; Ok (<[a := b']> coins)
  end.

(** ** Entry functions

    A [&signer] argument is the address of the signing account.
    [timestamp::now_seconds()] is the argument [now].  The address of the
    resource account that [account::create_resource_account] derives from
    the creator and the seed is given by the function
    [create_resource_address], a parameter of [initialize_dao]; the aborts
    of [create_resource_account] itself are not modelled, so the model
    founds a DAO wherever the chain would. *)

Definition initialize_dao (create_resource_address : address -> list N -> address)
    (account : address) (now : u64) (dao_seed : list N) (s : State)
  : result State :=
  let sender_addr := account in
  let treasury_addr := create_resource_address account dao_seed in
  let coins := coin_register (coin_store s) treasury_addr in
  do ts <- move_to (treasuries s) treasury_addr
        {| proposals := ∅;
           proposal_count := 0;
           total_funds := 0;
           total_governance_tokens := INITIAL_TOKEN_SUPPLY;
           staked_tokens := 0;
           admin := sender_addr;
           governance_threshold := 1000;
           paused := false;
           treasury_signer_cap := treasury_addr |};
  do ms <- move_to (members s) account
        {| governance_tokens :=
             {| balance := INITIAL_TOKEN_SUPPLY / 2;
                staked_balance := 0;
                last_claim_time := now;
                total_earned := INITIAL_TOKEN_SUPPLY / 2 |};
           proposals_created := 0;
           votes_cast := 0;
           member_since := now;
           reputation_score := 100 |};
  Ok {| treasuries := ts; members := ms; coin_store := coins;
        events := events s |}.

Definition join_dao (account : address) (now : u64) (s : State) : result State :=
  do ms <- move_to (members s) account
        {| governance_tokens :=
             {| balance := 100;
                staked_balance := 0;
                last_claim_time := now;
                total_earned := 100 |};
           proposals_created := 0;
           votes_cast := 0;
           member_since := now;
           reputation_score := 10 |};
  Ok (set_members s ms).

Definition deposit_funds (account : address) (dao_treasury_address : address)
    (amount : u64) (s : State) : result State :=
  let sender_addr := account in
  do treasury <- borrow_global (treasuries s) dao_treasury_address;
  assert! negb (paused treasury) or E_DAO_PAUSED;
  do coins <- coin_withdraw (coin_store s) account amount;
  do coins <- coin_deposit coins dao_treasury_address amount;
  do funds <- add_u64 (total_funds treasury) amount;
  let treasury := set_total_funds treasury funds in
  Ok (emit (FundsDepositedEvent sender_addr amount)
        (set_coin_store
           (set_treasuries s (<[dao_treasury_address := treasury]> (treasuries s)))
           coins)).

Definition stake_tokens (account : address) (dao_treasury_address : address)
    (amount : u64) (s : State) : result State :=
  let sender_addr := account in
  do treasury <- borrow_global (treasuries s) dao_treasury_address;
  do member <- borrow_global (members s) sender_addr;
  assert! negb (paused treasury) or E_DAO_PAUSED;
  assert! (amount <=? balance (governance_tokens member)) or E_INSUFFICIENT_TOKENS;
  do bal <- sub_u64 (balance (governance_tokens member)) amount;
  do staked <- add_u64 (staked_balance (governance_tokens member)) amount;
  do total_staked <- add_u64 (staked_tokens treasury) amount;
  do reputation <- add_u64 (reputation_score member) (amount / 100);
  let tokens := set_staked_balance (set_balance (governance_tokens member) bal) staked in
  let member := set_reputation_score (set_governance_tokens member tokens) reputation in
  let treasury := set_staked_tokens treasury total_staked in
  Ok (emit (TokensStakedEvent sender_addr amount)
        (set_members
           (set_treasuries s (<[dao_treasury_address := treasury]> (treasuries s)))
           (<[sender_addr := member]> (members s)))).

(** The sender's record is written before the recipient's is borrowed, so
    a transfer to oneself reads the debited balance. *)
Definition transfer_tokens (account : address) (recipient : address)
    (amount : u64) (s : State) : result State :=
  let sender_addr := account in
  do sender_member <- borrow_global (members s) sender_addr;
  assert! (amount <=? balance (governance_tokens sender_member))
    or E_INSUFFICIENT_TOKENS;
  do bal <- sub_u64 (balance (governance_tokens sender_member)) amount;
  let sender_member :=
    set_governance_tokens sender_member
      (set_balance (governance_tokens sender_member) bal) in
  let ms := <[sender_addr := sender_member]> (members s) in
  do recipient_member <- borrow_global ms recipient;
  do bal' <- add_u64 (balance (governance_tokens recipient_member)) amount;
  let recipient_member :=
    set_governance_tokens recipient_member
      (set_balance (governance_tokens recipient_member) bal') in
  Ok (set_members s (<[recipient := recipient_member]> ms)).

Definition create_investment_proposal (account : address) (now : u64)
    (dao_treasury_address : address) (title description : string)
    (category : u8) (recipient : address) (requested_amount : u64) (s : State)
  : result State :=
  let sender_addr := account in
  do treasury <- borrow_global (treasuries s) dao_treasury_address;
  do member <- borrow_global (members s) sender_addr;
  assert! negb (paused treasury) or E_DAO_PAUSED;
  assert! (category <=? CATEGORY_EMERGENCY) or E_INVALID_CATEGORY;
  assert! (MIN_PROPOSAL_AMOUNT <=? requested_amount) or E_PROPOSAL_TOO_SMALL;
  do total_tokens <- add_u64 (balance (governance_tokens member))
                       (staked_balance (governance_tokens member));
  assert! (governance_threshold treasury <=? total_tokens) or E_INSUFFICIENT_TOKENS;
  do _ <- (if category =? CATEGORY_FUNDING
           then assert (requested_amount <=? total_funds treasury) E_INSUFFICIENT_FUNDS
           else Ok tt);
  let proposal_id := proposal_count treasury in
  let current_time := now in
  let voting_duration :=
    if category =? CATEGORY_EMERGENCY then VOTING_PERIOD / 7 else VOTING_PERIOD in
  do voting_end <- add_u64 current_time voting_duration;
  do execution_time <- add_u64 voting_end EXECUTION_DELAY;
  let proposal :=
    {| id := proposal_id;
       title := title;
       description := description;
       category := category;
       recipient := recipient;
       requested_amount := requested_amount;
       yes_votes := 0;
       no_votes := 0;
       proposer := sender_addr;
       creation_time := current_time;
       voting_end_time := voting_end;
       execution_time := execution_time;
       status := 0;
       voters := ∅;
       executed := false |} in
  do props <- table_add (proposals treasury) proposal_id proposal;
  do count <- add_u64 proposal_id 1;
  do created <- add_u64 (proposals_created member) 1;
  do reputation <- add_u64 (reputation_score member) 5;
  let treasury := set_proposal_count (set_proposals treasury props) count in
  let member := set_reputation_score (set_proposals_created member created) reputation in
  Ok (emit (ProposalCreatedEvent proposal_id sender_addr title category requested_amount)
        (set_members
           (set_treasuries s (<[dao_treasury_address := treasury]> (treasuries s)))
           (<[sender_addr := member]> (members s)))).

Definition vote_on_proposal (account : address) (now : u64)
    (dao_treasury_address : address) (proposal_id : u64) (vote : bool) (s : State)
  : result State :=
  let voter_addr := account in
  do treasury <- borrow_global (treasuries s) dao_treasury_address;
  do member <- borrow_global (members s) voter_addr;
  assert! negb (paused treasury) or E_DAO_PAUSED;
  do proposal <- table_borrow (proposals treasury) proposal_id;
  assert! (status proposal =? 0) or E_PROPOSAL_NOT_OPEN;
  assert! (now <=? voting_end_time proposal) or E_VOTING_ENDED;
  assert! negb (table_contains (voters proposal) voter_addr) or E_ALREADY_VOTED;
  let base_voting_power := staked_balance (governance_tokens member) in
  let reputation_bonus := reputation_score member / 10 in
  do voting_power <- add_u64 base_voting_power reputation_bonus;
  assert! (0 <? voting_power) or E_INSUFFICIENT_TOKENS;
  do vs <- table_add (voters proposal) voter_addr voting_power;
  do cast <- add_u64 (votes_cast member) 1;
  do proposal <-
    (if vote
     then do yes <- add_u64 (yes_votes proposal) voting_power;
          Ok (set_yes_votes (set_voters proposal vs) yes)
     else do no <- add_u64 (no_votes proposal) voting_power;
          Ok (set_no_votes (set_voters proposal vs) no));
  do bal <- add_u64 (balance (governance_tokens member)) PARTICIPATION_REWARD;
  do earned <- add_u64 (total_earned (governance_tokens member)) PARTICIPATION_REWARD;
  do reputation <- add_u64 (reputation_score member) 1;
  let tokens := set_total_earned (set_balance (governance_tokens member) bal) earned in
  let member :=
    set_reputation_score
      (set_governance_tokens (set_votes_cast member cast) tokens) reputation in
  let treasury :=
    set_proposals treasury (<[proposal_id := proposal]> (proposals treasury)) in
  Ok (emit (VoteCastEvent proposal_id voter_addr vote voting_power PARTICIPATION_REWARD)
        (set_members
           (set_treasuries s (<[dao_treasury_address := treasury]> (treasuries s)))
           (<[voter_addr := member]> (members s)))).

(** The funds leave the account of the signer capability; the recorded
    [total_funds] is decremented after the coins have moved. *)
Definition execute_proposal (_account : address) (now : u64)
    (dao_treasury_address : address) (proposal_id : u64) (s : State)
  : result State :=
  do treasury <- borrow_global (treasuries s) dao_treasury_address;
  do proposal <- table_borrow (proposals treasury) proposal_id;
  assert! (status proposal =? 0) or E_PROPOSAL_NOT_OPEN;
  assert! negb (executed proposal) or E_PROPOSAL_ALREADY_EXECUTED;
  assert! (execution_time proposal <=? now) or E_PROPOSAL_NOT_READY;
  do total_votes <- add_u64 (yes_votes proposal) (no_votes proposal);
  do scaled <- mul_u64 (staked_tokens treasury) QUORUM_PERCENTAGE;
  let quorum_required := scaled / 100 in
  if total_votes <? quorum_required then
    let proposal := set_executed (set_status proposal 4) true in
    let treasury :=
      set_proposals treasury (<[proposal_id := proposal]> (proposals treasury)) in
    Ok (emit (ProposalExecutedEvent proposal_id 2 0)
          (set_treasuries s (<[dao_treasury_address := treasury]> (treasuries s))))
  else if no_votes proposal <? yes_votes proposal then
    do '(treasury, coins) <-
      (if category proposal =? CATEGORY_FUNDING then
         let treasury_signer := treasury_signer_cap treasury in
         do coins <- coin_withdraw (coin_store s) treasury_signer
                       (requested_amount proposal);
         do coins <- coin_deposit coins (recipient proposal)
                       (requested_amount proposal);
         do funds <- sub_u64 (total_funds treasury) (requested_amount proposal);
         Ok (set_total_funds treasury funds, coins)
       else Ok (treasury, coin_store s));
    let proposal := set_status proposal 1 in
    let amount_transferred :=
      if category proposal =? CATEGORY_FUNDING
      then requested_amount proposal else 0 in
    let proposal := set_executed proposal true in
    let treasury :=
      set_proposals treasury (<[proposal_id := proposal]> (proposals treasury)) in
    Ok (emit (ProposalExecutedEvent proposal_id 0 amount_transferred)
          (set_coin_store
             (set_treasuries s (<[dao_treasury_address := treasury]> (treasuries s)))
             coins))
  else
    let proposal := set_executed (set_status proposal 2) true in
    let treasury :=
      set_proposals treasury (<[proposal_id := proposal]> (proposals treasury)) in
    Ok (emit (ProposalExecutedEvent proposal_id 1 0)
          (set_treasuries s (<[dao_treasury_address := treasury]> (treasuries s)))).

Definition distribute_tokens (account : address) (dao_treasury_address : address)
    (recipient : address) (amount : u64) (reason : string) (s : State)
  : result State :=
  let sender_addr := account in
  do treasury <- borrow_global (treasuries s) dao_treasury_address;
  assert! (sender_addr =? admin treasury) or E_NOT_AUTHORIZED;
  do recipient_member <- borrow_global (members s) recipient;
  do bal <- add_u64 (balance (governance_tokens recipient_member)) amount;
  do earned <- add_u64 (total_earned (governance_tokens recipient_member)) amount;
  let tokens :=
    set_total_earned (set_balance (governance_tokens recipient_member) bal) earned in
  let recipient_member := set_governance_tokens recipient_member tokens in
  Ok (emit (TokensDistributedEvent recipient amount reason)
        (set_members s (<[recipient := recipient_member]> (members s)))).

Definition emergency_pause (account : address) (dao_treasury_address : address)
    (s : State) : result State :=
  let sender_addr := account in
  do treasury <- borrow_global (treasuries s) dao_treasury_address;
  assert! (sender_addr =? admin treasury) or E_NOT_AUTHORIZED;
  let treasury := set_paused treasury true in
  Ok (emit (EmergencyActionEvent sender_addr "PAUSE" true)
        (set_treasuries s (<[dao_treasury_address := treasury]> (treasuries s)))).

Definition emergency_unpause (account : address) (dao_treasury_address : address)
    (s : State) : result State :=
  let sender_addr := account in
  do treasury <- borrow_global (treasuries s) dao_treasury_address;
  assert! (sender_addr =? admin treasury) or E_NOT_AUTHORIZED;
  let treasury := set_paused treasury false in
  Ok (emit (EmergencyActionEvent sender_addr "UNPAUSE" false)
        (set_treasuries s (<[dao_treasury_address := treasury]> (treasuries s)))).

(** ** View functions *)

Definition get_proposal_info (dao_treasury_address : address) (proposal_id : u64)
    (s : State)
  : result (string * u8 * u64 * u64 * u64 * u8 * u64 * bool * address) :=
  do treasury <- borrow_global (treasuries s) dao_treasury_address;
  do proposal <- table_borrow (proposals treasury) proposal_id;
  Ok (title proposal,
      category proposal,
      requested_amount proposal,
      yes_votes proposal,
      no_votes proposal,
      status proposal,
      voting_end_time proposal,
      executed proposal,
      proposer proposal).

Definition get_member_info (member_address : address) (s : State)
  : result (u64 * u64 * u64 * u64 * u64 * u64) :=
  do member <- borrow_global (members s) member_address;
  Ok (balance (governance_tokens member),
      staked_balance (governance_tokens member),
      total_earned (governance_tokens member),
      proposals_created member,
      votes_cast member,
      reputation_score member).

Definition get_treasury_info (dao_treasury_address : address) (s : State)
  : result (u64 * u64 * u64 * u64 * bool * address) :=
  do treasury <- borrow_global (treasuries s) dao_treasury_address;
  Ok (total_funds treasury,
      proposal_count treasury,
      total_governance_tokens treasury,
      staked_tokens treasury,
      paused treasury,
      admin treasury).

Definition get_voting_power (member_address : address) (s : State) : result u64 :=
  do member <- borrow_global (members s) member_address;
  let base_power := staked_balance (governance_tokens member) in
  let reputation_bonus := reputation_score member / 10 in
  add_u64 base_power reputation_bonus.

Definition get_recipient_details (dao_treasury_address : address)
    (proposal_id : u64) (s : State) : result (address * u64) :=
  do treasury <- borrow_global (treasuries s) dao_treasury_address;
  do proposal <- table_borrow (proposals treasury) proposal_id;
  Ok (recipient proposal, requested_amount proposal).

Definition calculate_quorum (dao_treasury_address : address) (s : State)
  : result u64 :=
  do treasury <- borrow_global (treasuries s) dao_treasury_address;
  do scaled <- mul_u64 (staked_tokens treasury) QUORUM_PERCENTAGE;
  Ok (scaled / 100).

(** ** Transactions

    A transaction that aborts leaves the storage as it was; the abort is
    what the caller sees. *)

Definition commit (s : State) (r : result State) : State :=
  match r with
  | Ok s' => s'
  | Err _ => s
  end.

Definition is_fault {A : Type} (r : result A) : bool :=
  match r with
  | Ok _ => false
  | Err _ => true
  end.

(** A view reads the storage and leaves it alone: [n] calls in a row all
    see the same storage. *)
Fixpoint repeat_view {A : Type} (n : nat) (view : State -> result A) (s : State)
  : list (result A) :=
  match n with
  | O => []
  | S n' => view s :: repeat_view n' view s
  end.

(** The state-mutating entry points, as calls. *)
Inductive Op : Type :=
| InitializeDao (account : address) (dao_seed : list N)
| JoinDao (account : address)
| DepositFunds (account : address) (dao_treasury_address : address) (amount : u64)
| StakeTokens (account : address) (dao_treasury_address : address) (amount : u64)
| TransferTokens (account : address) (recipient : address) (amount : u64)
| CreateInvestmentProposal (account : address) (dao_treasury_address : address)
    (title description : string) (category : u8) (recipient : address)
    (requested_amount : u64)
| VoteOnProposal (account : address) (dao_treasury_address : address)
    (proposal_id : u64) (vote : bool)
| ExecuteProposal (account : address) (dao_treasury_address : address)
    (proposal_id : u64)
| DistributeTokens (account : address) (dao_treasury_address : address)
    (recipient : address) (amount : u64) (reason : string)
| EmergencyPause (account : address) (dao_treasury_address : address)
| EmergencyUnpause (account : address) (dao_treasury_address : address).

Definition step (create_resource_address : address -> list N -> address)
    (now : u64) (op : Op) (s : State) : result State :=
  match op with
  | InitializeDao account dao_seed =>
      initialize_dao create_resource_address account now dao_seed s
  | JoinDao account => join_dao account now s
  | DepositFunds account t amount => deposit_funds account t amount s
  | StakeTokens account t amount => stake_tokens account t amount s
  | TransferTokens account recipient amount =>
      transfer_tokens account recipient amount s
  | CreateInvestmentProposal account t title description category recipient amount =>
      create_investment_proposal account now t title description category
        recipient amount s
  | VoteOnProposal account t proposal_id vote =>
      vote_on_proposal account now t proposal_id vote s
  | ExecuteProposal account t proposal_id =>
      execute_proposal account now t proposal_id s
  | DistributeTokens account t recipient amount reason =>
      distribute_tokens account t recipient amount reason s
  | EmergencyPause account t => emergency_pause account t s
  | EmergencyUnpause account t => emergency_unpause account t s
  end.

(** Before the module is used no account holds one of its resources; the
    coin stores and the event log are whatever the chain has. *)
Definition genesis (s : State) : Prop :=
  treasuries s = ∅ /\ members s = ∅.

(** The states the entry functions can produce from a genesis state, at
    any times. *)
Inductive reachable (create_resource_address : address -> list N -> address)
  : State -> Prop :=
| reachable_genesis (s : State) :
    genesis s -> reachable create_resource_address s
| reachable_step (s s' : State) (now : u64) (op : Op) :
    reachable create_resource_address s ->
    step create_resource_address now op s = Ok s' ->
    reachable create_resource_address s'.

(** Runs a list of timed calls, stopping at the first abort. *)
Fixpoint run (create_resource_address : address -> list N -> address)
    (calls : list (u64 * Op)) (s : State) : result State :=
  match calls with
  | [] => Ok s
  | (now, op) :: rest =>
      do s' <- step create_resource_address now op s;
      run create_resource_address rest s'
  end.

(** The tokens a member holds, liquid and staked. *)
Definition holdings (m : DAOMember) : N :=
  balance (governance_tokens m) + staked_balance (governance_tokens m).

Definition is_transfer_from (a : address) (op : Op) : Prop :=
  match op with
  | TransferTokens account _ _ => account = a
  | _ => False
  end.

(** A result with the member records put back to [ms]. *)
Definition with_members (ms : gmap N DAOMember) (r : result State) : result State :=
  match r with
  | Ok s' => Ok (set_members s' ms)
  | Err e => Err e
  end.

(** The calls that assert [!treasury.paused] on the treasury at [a]. *)
Definition checks_pause (a : address) (op : Op) : Prop :=
  match op with
  | DepositFunds _ t _ => t = a
  | StakeTokens _ t _ => t = a
  | CreateInvestmentProposal _ t _ _ _ _ _ => t = a
  | VoteOnProposal _ t _ _ => t = a
  | _ => False
  end.

(** Three of them borrow the caller's member record before the assertion. *)
Definition caller_record_found (s : State) (op : Op) : Prop :=
  match op with
  | StakeTokens account _ _ => is_Some (members s !! account)
  | CreateInvestmentProposal account _ _ _ _ _ _ => is_Some (members s !! account)
  | VoteOnProposal account _ _ _ => is_Some (members s !! account)
  | _ => True
  end.

(** A proposal that has been executed is no longer open. *)
Definition resolved_when_executed (s : State) : Prop :=
  forall a t pid p,
    treasuries s !! a = Some t -> proposals t !! pid = Some p ->
    executed p = true -> status p <> 0.

(** ** Example chains

    Account 1 founds the DAO, accounts 2 and 3 join, account 7 is a
    recipient with an empty coin store.  The treasury of the DAO that
    account 1 founds lives at address 1001. *)

Definition example_resource_address (creator : address) (seed : list N) : address :=
  creator + 1000.

Definition example_genesis : State :=
  {| treasuries := ∅; members := ∅;
     coin_store := {[ 1 := 5000; 7 := 0 ]};
     events := [] |}.

(** As [example_genesis], but the future treasury account has been sent
    2000 coins before the DAO is founded. *)
Definition prefunded_genesis : State :=
  {| treasuries := ∅; members := ∅;
     coin_store := {[ 1 := 5000; 7 := 0; 1001 := 2000 ]};
     events := [] |}.

Definition play (calls : list (u64 * Op)) (s : State) : State :=
  commit s (run example_resource_address calls s).

(** Founder votes yes with power 300, member 2 votes no with power 100,
    on a Funding proposal of 1000 for account 7; 389 tokens are staked. *)
Definition passing_calls : list (u64 * Op) :=
  [ (10, InitializeDao 1 []);
    (11, JoinDao 2);
    (12, DepositFunds 1 1001 3000);
    (13, StakeTokens 1 1001 290);
    (14, StakeTokens 2 1001 99);
    (15, CreateInvestmentProposal 1 1001 "Seed round" "Fund account 7" 0 7 1000);
    (20, VoteOnProposal 1 1001 0 true);
    (21, VoteOnProposal 2 1001 0 false) ].

Definition passing_state : State := play passing_calls example_genesis.

(** 1000 tokens are staked (quorum 200); member 2 votes yes with power
    150 and member 3 votes no with power 40. *)
Definition below_quorum_calls : list (u64 * Op) :=
  [ (10, InitializeDao 1 []);
    (11, JoinDao 2);
    (11, JoinDao 3);
    (12, TransferTokens 1 2 100);
    (12, DepositFunds 1 1001 3000);
    (13, StakeTokens 1 1001 812);
    (13, StakeTokens 2 1001 149);
    (13, StakeTokens 3 1001 39);
    (15, CreateInvestmentProposal 1 1001 "Seed round" "Fund account 7" 0 7 1000);
    (20, VoteOnProposal 2 1001 0 true);
    (21, VoteOnProposal 3 1001 0 false) ].

Definition below_quorum_state : State := play below_quorum_calls example_genesis.

(** Founder and member 2 both vote with power 100, one each way. *)
Definition tied_calls : list (u64 * Op) :=
  [ (10, InitializeDao 1 []);
    (11, JoinDao 2);
    (12, DepositFunds 1 1001 3000);
    (13, StakeTokens 1 1001 90);
    (14, StakeTokens 2 1001 99);
    (15, CreateInvestmentProposal 1 1001 "Seed round" "Fund account 7" 0 7 1000);
    (20, VoteOnProposal 1 1001 0 true);
    (21, VoteOnProposal 2 1001 0 false) ].

Definition tied_state : State := play tied_calls example_genesis.

(** The tied proposal, executed once. *)
Definition executed_state : State :=
  play (tied_calls ++ [(700000, ExecuteProposal 2 1001 0)]) example_genesis.

(** Two Funding proposals of 1000 each are created while the treasury
    records 1000; both pass; the first has been executed. *)
Definition shortfall_calls : list (u64 * Op) :=
  [ (10, InitializeDao 1 []);
    (12, DepositFunds 1 1001 1000);
    (13, StakeTokens 1 1001 290);
    (15, CreateInvestmentProposal 1 1001 "First" "Fund account 7" 0 7 1000);
    (16, CreateInvestmentProposal 1 1001 "Second" "Fund account 7 again" 0 7 1000);
    (20, VoteOnProposal 1 1001 0 true);
    (21, VoteOnProposal 1 1001 1 true);
    (700000, ExecuteProposal 1 1001 0) ].

Definition shortfall_state : State := play shortfall_calls example_genesis.
Definition prefunded_shortfall_state : State := play shortfall_calls prefunded_genesis.

(** The admin has paused the DAO. *)
Definition paused_calls : list (u64 * Op) :=
  [ (10, InitializeDao 1 []);
    (11, JoinDao 2);
    (12, EmergencyPause 1 1001) ].

Definition paused_state : State := play paused_calls example_genesis.


(** ** Invariants of the storage *)

(** The sum of [f] over the values of a map. *)
Definition sum_map {A : Type} (f : A -> N) (m : gmap N A) : N :=
  map_fold (fun _ v acc => f v + acc) 0 m.

(** What [create_investment_proposal] establishes for the proposal it
    stores under [pid] and no later call undoes. *)
Definition proposal_as_created (pid : N) (p : InvestmentProposal) : Prop :=
  id p = pid /\
  category p <= CATEGORY_EMERGENCY /\
  MIN_PROPOSAL_AMOUNT <= requested_amount p /\
  voting_end_time p
    = creation_time p
      + (if category p =? CATEGORY_EMERGENCY then VOTING_PERIOD / 7 else VOTING_PERIOD) /\
  execution_time p = voting_end_time p + EXECUTION_DELAY.

(** The statuses the module writes, and how [executed] goes with them. *)
Definition proposal_lifecycle (p : InvestmentProposal) : Prop :=
  (status p = 0 \/ status p = 1 \/ status p = 2 \/ status p = 4) /\
  (status p = 0 <-> executed p = false).

(** The tallies are the powers recorded in the voter table. *)
Definition tally_matches_voters (p : InvestmentProposal) : Prop :=
  yes_votes p + no_votes p = sum_map (fun power => power) (voters p).

Definition every_proposal (P : N -> InvestmentProposal -> Prop) (s : State) : Prop :=
  forall a t pid p,
    treasuries s !! a = Some t -> proposals t !! pid = Some p -> P pid p.

(** Proposal ids are the numbers below the counter. *)
Definition ids_dense (s : State) : Prop :=
  forall a t pid,
    treasuries s !! a = Some t ->
    (is_Some (proposals t !! pid) <-> pid < proposal_count t).



Definition staked_of (m : DAOMember) : N := staked_balance (governance_tokens m).

(** The staked totals of the treasuries account for every staked token. *)
Definition stakes_accounted (s : State) : Prop :=
  sum_map staked_tokens (treasuries s) = sum_map staked_of (members s).

(** The tokens a committed call hands out. *)
Definition issued (op : Op) : N :=
  match op with
  | InitializeDao _ _ => INITIAL_TOKEN_SUPPLY / 2
  | JoinDao _ => 100
  | VoteOnProposal _ _ _ _ => PARTICIPATION_REWARD
  | DistributeTokens _ _ _ amount _ => amount
  | _ => 0
  end.

(** ** The client's labels ([src/client/src/types/dao.ts])

    The two [switch] helpers of the client, on the numbers the views
    return. *)

Definition getProposalStatusString (status : N) : string :=
  match status with
  | 0 => "Open"
  | 1 => "Funded"
  | 2 => "Rejected"
  | 3 => "Executed"
  | 4 => "Quorum Not Met"
  | _ => "Open"
  end.

Definition getCategoryString (category : N) : string :=
  match category with
  | 0 => "Funding"
  | 1 => "Governance"
  | 2 => "Emergency"
  | _ => "Funding"
  end.

(** * Properties *)

(** ** The result monad and the framework calls *)

Lemma bind_Ok_inv {A B : Type} (r : result A) (k : A -> result B) (b : B) :
  bind r k = Ok b -> exists a, r = Ok a /\ k a = Ok b.
Proof. destruct r as [a|e]; simpl; [eauto | discriminate]. Qed.

Lemma assert_true (cond : bool) (code : u64) :
  cond = true -> assert cond code = Ok tt.
Proof. intros ->. reflexivity. Qed.

Lemma assert_false (cond : bool) (code : u64) :
  cond = false -> assert cond code = Err (Abort code).
Proof. intros ->. reflexivity. Qed.

Lemma assert_Ok_inv (cond : bool) (code : u64) (u : unit) :
  assert cond code = Ok u -> cond = true.
Proof. destruct cond; simpl; [reflexivity | discriminate]. Qed.

Lemma add_u64_ok (a b : u64) : a + b <= MAX_U64 -> add_u64 a b = Ok (a + b).
Proof. intros H. unfold add_u64. apply N.leb_le in H. rewrite H. reflexivity. Qed.

Lemma sub_u64_ok (a b : u64) : b <= a -> sub_u64 a b = Ok (a - b).
Proof. intros H. unfold sub_u64. apply N.leb_le in H. rewrite H. reflexivity. Qed.

Lemma sub_u64_underflow (a b : u64) : a < b -> sub_u64 a b = Err ARITHMETIC_ERROR.
Proof. intros H. unfold sub_u64. apply N.leb_gt in H. rewrite H. reflexivity. Qed.

Lemma mul_u64_ok (a b : u64) : a * b <= MAX_U64 -> mul_u64 a b = Ok (a * b).
Proof. intros H. unfold mul_u64. apply N.leb_le in H. rewrite H. reflexivity. Qed.

Lemma add_u64_Ok_inv (a b c : u64) :
  add_u64 a b = Ok c -> c = a + b /\ a + b <= MAX_U64.
Proof.
  unfold add_u64. destruct (a + b <=? MAX_U64) eqn:E; [|discriminate].
  intros [= <-]. split; [reflexivity | now apply N.leb_le].
Qed.

Lemma sub_u64_Ok_inv (a b c : u64) :
  sub_u64 a b = Ok c -> c = a - b /\ b <= a.
Proof.
  unfold sub_u64. destruct (b <=? a) eqn:E; [|discriminate].
  intros [= <-]. split; [reflexivity | now apply N.leb_le].
Qed.

Lemma mul_u64_Ok_inv (a b c : u64) :
  mul_u64 a b = Ok c -> c = a * b /\ a * b <= MAX_U64.
Proof.
  unfold mul_u64. destruct (a * b <=? MAX_U64) eqn:E; [|discriminate].
  intros [= <-]. split; [reflexivity | now apply N.leb_le].
Qed.

Lemma borrow_global_ok {A : Type} (store : gmap N A) (a : address) (r : A) :
  store !! a = Some r -> borrow_global store a = Ok r.
Proof. intros H. unfold borrow_global. rewrite H. reflexivity. Qed.

Lemma borrow_global_Ok_inv {A : Type} (store : gmap N A) (a : address) (r : A) :
  borrow_global store a = Ok r -> store !! a = Some r.
Proof. unfold borrow_global. destruct (store !! a); congruence. Qed.

Lemma move_to_Ok_inv {A : Type} (store store' : gmap N A) (a : address) (r : A) :
  move_to store a r = Ok store' -> store !! a = None /\ store' = <[a := r]> store.
Proof. unfold move_to. destruct (store !! a); [discriminate|]. intros [= <-]. auto. Qed.

Lemma table_borrow_ok {A : Type} (t : gmap N A) (k : N) (v : A) :
  t !! k = Some v -> table_borrow t k = Ok v.
Proof. intros H. unfold table_borrow. rewrite H. reflexivity. Qed.

Lemma table_borrow_missing {A : Type} (t : gmap N A) (k : N) :
  t !! k = None -> table_borrow t k = Err TABLE_NOT_FOUND.
Proof. intros H. unfold table_borrow. rewrite H. reflexivity. Qed.

Lemma table_borrow_Ok_inv {A : Type} (t : gmap N A) (k : N) (v : A) :
  table_borrow t k = Ok v -> t !! k = Some v.
Proof. unfold table_borrow. destruct (t !! k); congruence. Qed.

Lemma table_add_Ok_inv {A : Type} (t t' : gmap N A) (k : N) (v : A) :
  table_add t k v = Ok t' -> t !! k = None /\ t' = <[k := v]> t.
Proof. unfold table_add. destruct (t !! k); [discriminate|]. intros [= <-]. auto. Qed.

Lemma coin_withdraw_ok (coins : gmap N N) (a : address) (b amount : u64) :
  coins !! a = Some b -> amount <= b ->
  coin_withdraw coins a amount = Ok (<[a := b - amount]> coins).
Proof.
  intros H Hle. unfold coin_withdraw. rewrite H.
  apply N.leb_le in Hle. rewrite Hle. reflexivity.
Qed.

Lemma coin_deposit_ok (coins : gmap N N) (a : address) (b amount : u64) :
  coins !! a = Some b -> b + amount <= MAX_U64 ->
  coin_deposit coins a amount = Ok (<[a := b + amount]> coins).
Proof.
  intros H Hle. unfold coin_deposit. rewrite H, (add_u64_ok _ _ Hle). reflexivity.
Qed.

(** ** Execution: the quorum gate *)

Section Execute.
Variables (caller now dao_treasury_address proposal_id : N).
Variables (s : State) (treasury : DAOTreasury) (proposal : InvestmentProposal).

Hypothesis treasury_found : treasuries s !! dao_treasury_address = Some treasury.
Hypothesis proposal_found : proposals treasury !! proposal_id = Some proposal.

(** The three assertions pass on an open, unexecuted proposal whose
    execution time has come; what is left is the resolution. *)
Lemma execute_proposal_open :
  status proposal = 0 ->
  executed proposal = false ->
  execution_time proposal <= now ->
  yes_votes proposal + no_votes proposal <= MAX_U64 ->
  staked_tokens treasury * QUORUM_PERCENTAGE <= MAX_U64 ->
  execute_proposal caller now dao_treasury_address proposal_id s =
  let total_votes := yes_votes proposal + no_votes proposal in
  let quorum_required := staked_tokens treasury * QUORUM_PERCENTAGE / 100 in
  if total_votes <? quorum_required then
    let proposal := set_executed (set_status proposal 4) true in
    let treasury :=
      set_proposals treasury (<[proposal_id := proposal]> (proposals treasury)) in
    Ok (emit (ProposalExecutedEvent proposal_id 2 0)
          (set_treasuries s (<[dao_treasury_address := treasury]> (treasuries s))))
  else if no_votes proposal <? yes_votes proposal then
    do '(treasury, coins) <-
      (if category proposal =? CATEGORY_FUNDING then
         do coins <- coin_withdraw (coin_store s) (treasury_signer_cap treasury)
                       (requested_amount proposal);
         do coins <- coin_deposit coins (recipient proposal)
                       (requested_amount proposal);
         do funds <- sub_u64 (total_funds treasury) (requested_amount proposal);
         Ok (set_total_funds treasury funds, coins)
       else Ok (treasury, coin_store s));
    let amount_transferred :=
      if category proposal =? CATEGORY_FUNDING
      then requested_amount proposal else 0 in
    let proposal := set_executed (set_status proposal 1) true in
    let treasury :=
      set_proposals treasury (<[proposal_id := proposal]> (proposals treasury)) in
    Ok (emit (ProposalExecutedEvent proposal_id 0 amount_transferred)
          (set_coin_store
             (set_treasuries s (<[dao_treasury_address := treasury]> (treasuries s)))
             coins))
  else
    let proposal := set_executed (set_status proposal 2) true in
    let treasury :=
      set_proposals treasury (<[proposal_id := proposal]> (proposals treasury)) in
    Ok (emit (ProposalExecutedEvent proposal_id 1 0)
          (set_treasuries s (<[dao_treasury_address := treasury]> (treasuries s)))).
Proof.
  intros Hopen Hnot Htime Hvotes Hscaled.
  unfold execute_proposal.
  rewrite (borrow_global_ok _ _ _ treasury_found); simpl.
  rewrite (table_borrow_ok _ _ _ proposal_found); simpl.
  rewrite Hopen, Hnot; simpl.
  apply N.leb_le in Htime. rewrite Htime; simpl.
  rewrite (add_u64_ok _ _ Hvotes), (mul_u64_ok _ _ Hscaled); simpl.
  reflexivity.
Qed.

(** C2. An open proposal whose execution time has come and whose cast
    votes [yes + no] are strictly below the quorum
    [staked_tokens * 20 / 100] is resolved to QuorumNotMet: the status
    becomes 4, [executed] becomes true, the event says result 2 and
    amount 0, and no funds move: the coin stores, the recorded
    [total_funds] and every other resource stay as they were. *)
Theorem execute_quorum_not_met :
  status proposal = 0 ->
  executed proposal = false ->
  execution_time proposal <= now ->
  yes_votes proposal + no_votes proposal <= MAX_U64 ->
  staked_tokens treasury * QUORUM_PERCENTAGE <= MAX_U64 ->
  yes_votes proposal + no_votes proposal
    < staked_tokens treasury * QUORUM_PERCENTAGE / 100 ->
  exists s' treasury' proposal',
    execute_proposal caller now dao_treasury_address proposal_id s = Ok s' /\
    treasuries s' = <[dao_treasury_address := treasury']> (treasuries s) /\
    treasury' = set_proposals treasury
                  (<[proposal_id := proposal']> (proposals treasury)) /\
    proposal' = set_executed (set_status proposal 4) true /\
    status proposal' = 4 /\
    executed proposal' = true /\
    total_funds treasury' = total_funds treasury /\
    coin_store s' = coin_store s /\
    members s' = members s /\
    events s' = events s ++ [ProposalExecutedEvent proposal_id 2 0].
Proof.
  intros Hopen Hnot Htime Hvotes Hscaled Hquorum.
  rewrite (execute_proposal_open Hopen Hnot Htime Hvotes Hscaled). cbv zeta.
  apply N.ltb_lt in Hquorum. rewrite Hquorum.
  do 3 eexists. split; [reflexivity|]. simpl. repeat split; reflexivity.
Qed.

(** C6. An open proposal executed past its execution time, with the
    quorum met and the yes-tally equal to the no-tally, is Rejected
    (status 2, event result 1, amount 0), [executed] becomes true and no
    funds move. *)
Theorem execute_tie_rejected :
  status proposal = 0 ->
  executed proposal = false ->
  execution_time proposal <= now ->
  yes_votes proposal + no_votes proposal <= MAX_U64 ->
  staked_tokens treasury * QUORUM_PERCENTAGE <= MAX_U64 ->
  staked_tokens treasury * QUORUM_PERCENTAGE / 100
    <= yes_votes proposal + no_votes proposal ->
  yes_votes proposal = no_votes proposal ->
  exists s' treasury' proposal',
    execute_proposal caller now dao_treasury_address proposal_id s = Ok s' /\
    treasuries s' = <[dao_treasury_address := treasury']> (treasuries s) /\
    treasury' = set_proposals treasury
                  (<[proposal_id := proposal']> (proposals treasury)) /\
    proposal' = set_executed (set_status proposal 2) true /\
    status proposal' = 2 /\
    executed proposal' = true /\
    total_funds treasury' = total_funds treasury /\
    coin_store s' = coin_store s /\
    members s' = members s /\
    events s' = events s ++ [ProposalExecutedEvent proposal_id 1 0].
Proof.
  intros Hopen Hnot Htime Hvotes Hscaled Hquorum Htie.
  rewrite (execute_proposal_open Hopen Hnot Htime Hvotes Hscaled). cbv zeta.
  apply N.ltb_ge in Hquorum. rewrite Hquorum.
  rewrite Htie, N.ltb_irrefl.
  do 3 eexists. split; [reflexivity|]. simpl. repeat split; reflexivity.
Qed.

(** Any rejection (yes not above no, quorum met) moves no funds either. *)
Lemma execute_rejected :
  status proposal = 0 ->
  executed proposal = false ->
  execution_time proposal <= now ->
  yes_votes proposal + no_votes proposal <= MAX_U64 ->
  staked_tokens treasury * QUORUM_PERCENTAGE <= MAX_U64 ->
  staked_tokens treasury * QUORUM_PERCENTAGE / 100
    <= yes_votes proposal + no_votes proposal ->
  yes_votes proposal <= no_votes proposal ->
  execute_proposal caller now dao_treasury_address proposal_id s =
  Ok (emit (ProposalExecutedEvent proposal_id 1 0)
        (set_treasuries s
           (<[dao_treasury_address :=
                set_proposals treasury
                  (<[proposal_id := set_executed (set_status proposal 2) true]>
                     (proposals treasury))]> (treasuries s)))).
Proof.
  intros Hopen Hnot Htime Hvotes Hscaled Hquorum Hle.
  rewrite (execute_proposal_open Hopen Hnot Htime Hvotes Hscaled). cbv zeta.
  apply N.ltb_ge in Hquorum. rewrite Hquorum.
  apply N.ltb_ge in Hle. rewrite Hle. reflexivity.
Qed.

(** C1. A Funding proposal that is open, whose execution time has come,
    whose cast votes meet the quorum and whose yes-tally is strictly
    above its no-tally is Funded: exactly [requested_amount] leaves the
    coin store of the treasury account and reaches the recipient's,
    [total_funds] goes down by exactly [requested_amount], the status
    becomes 1, [executed] becomes true and the event says result 0 and
    amount [requested_amount].  The treasury must hold the amount, in
    coins and on record, and the recipient must be able to receive it
    (a coin store, no overflow); the shortfall is the subject of C4.
    When the recipient is the treasury account itself the coins leave
    and come back. *)
Theorem execute_funding_passes (custody received : u64) :
  category proposal = CATEGORY_FUNDING ->
  status proposal = 0 ->
  executed proposal = false ->
  execution_time proposal <= now ->
  yes_votes proposal + no_votes proposal <= MAX_U64 ->
  staked_tokens treasury * QUORUM_PERCENTAGE <= MAX_U64 ->
  staked_tokens treasury * QUORUM_PERCENTAGE / 100
    <= yes_votes proposal + no_votes proposal ->
  no_votes proposal < yes_votes proposal ->
  coin_store s !! treasury_signer_cap treasury = Some custody ->
  requested_amount proposal <= custody ->
  requested_amount proposal <= total_funds treasury ->
  coin_store s !! recipient proposal = Some received ->
  received + requested_amount proposal <= MAX_U64 ->
  exists s' treasury' proposal',
    execute_proposal caller now dao_treasury_address proposal_id s = Ok s' /\
    (recipient proposal <> treasury_signer_cap treasury ->
       coin_store s' !! treasury_signer_cap treasury
         = Some (custody - requested_amount proposal) /\
       coin_store s' !! recipient proposal
         = Some (received + requested_amount proposal)) /\
    (recipient proposal = treasury_signer_cap treasury ->
       coin_store s' !! treasury_signer_cap treasury = Some custody) /\
    (forall a, a <> treasury_signer_cap treasury -> a <> recipient proposal ->
               coin_store s' !! a = coin_store s !! a) /\
    treasuries s' = <[dao_treasury_address := treasury']> (treasuries s) /\
    treasury' = set_proposals
                  (set_total_funds treasury
                     (total_funds treasury - requested_amount proposal))
                  (<[proposal_id := proposal']> (proposals treasury)) /\
    total_funds treasury' = total_funds treasury - requested_amount proposal /\
    proposal' = set_executed (set_status proposal 1) true /\
    status proposal' = 1 /\
    executed proposal' = true /\
    members s' = members s /\
    events s' = events s ++
      [ProposalExecutedEvent proposal_id 0 (requested_amount proposal)].
Proof.
  intros Hcat Hopen Hnot Htime Hvotes Hscaled Hquorum Hyes
         Hcustody Hcoins Hfunds Hreceived Hroom.
  rewrite (execute_proposal_open Hopen Hnot Htime Hvotes Hscaled). cbv zeta.
  apply N.ltb_ge in Hquorum. rewrite Hquorum.
  apply N.ltb_lt in Hyes. rewrite Hyes.
  rewrite Hcat, N.eqb_refl.
  rewrite (coin_withdraw_ok _ _ _ _ Hcustody Hcoins); simpl.
  destruct (decide (recipient proposal = treasury_signer_cap treasury)) as [Heq|Hne].
  - assert (received = custody) as -> by congruence.
    erewrite coin_deposit_ok; [ | rewrite Heq; apply lookup_insert_eq | lia ].
    simpl. rewrite (sub_u64_ok _ _ Hfunds); simpl.
    do 3 eexists. split; [reflexivity|]. simpl.
    split; [ intros Hne; contradiction |].
    split; [ intros _; rewrite Heq, lookup_insert_eq; f_equal; lia |].
    split; [ intros a Ha1 Ha2; rewrite !lookup_insert_ne by congruence;
             reflexivity |].
    repeat split; reflexivity.
  - erewrite coin_deposit_ok;
      [ | rewrite lookup_insert_ne by congruence; exact Hreceived | exact Hroom ].
    simpl. rewrite (sub_u64_ok _ _ Hfunds); simpl.
    do 3 eexists. split; [reflexivity|]. simpl.
    split; [ intros _; split;
             [ rewrite lookup_insert_ne by congruence; apply lookup_insert_eq
             | apply lookup_insert_eq ] |].
    split; [ intros Heq; contradiction |].
    split; [ intros a Ha1 Ha2; rewrite !lookup_insert_ne by congruence;
             reflexivity |].
    repeat split; reflexivity.
Qed.

(** A passing proposal of another category moves nothing and reports
    amount 0. *)
Lemma execute_non_funding_passes :
  category proposal <> CATEGORY_FUNDING ->
  status proposal = 0 ->
  executed proposal = false ->
  execution_time proposal <= now ->
  yes_votes proposal + no_votes proposal <= MAX_U64 ->
  staked_tokens treasury * QUORUM_PERCENTAGE <= MAX_U64 ->
  staked_tokens treasury * QUORUM_PERCENTAGE / 100
    <= yes_votes proposal + no_votes proposal ->
  no_votes proposal < yes_votes proposal ->
  execute_proposal caller now dao_treasury_address proposal_id s =
  Ok (emit (ProposalExecutedEvent proposal_id 0 0)
        (set_coin_store
           (set_treasuries s
              (<[dao_treasury_address :=
                   set_proposals treasury
                     (<[proposal_id := set_executed (set_status proposal 1) true]>
                        (proposals treasury))]> (treasuries s)))
           (coin_store s))).
Proof.
  intros Hcat Hopen Hnot Htime Hvotes Hscaled Hquorum Hyes.
  rewrite (execute_proposal_open Hopen Hnot Htime Hvotes Hscaled). cbv zeta.
  apply N.ltb_ge in Hquorum. rewrite Hquorum.
  apply N.ltb_lt in Hyes. rewrite Hyes.
  apply N.eqb_neq in Hcat. rewrite Hcat. reflexivity.
Qed.

(** The shortfall: a passing Funding proposal that asks for more than the
    recorded [total_funds] makes the call abort, and the abort is one the
    coin framework or the VM raises, never an error code of the module
    (in particular not [E_INSUFFICIENT_FUNDS]). *)
Lemma execute_shortfall_aborts :
  category proposal = CATEGORY_FUNDING ->
  status proposal = 0 ->
  executed proposal = false ->
  execution_time proposal <= now ->
  yes_votes proposal + no_votes proposal <= MAX_U64 ->
  staked_tokens treasury * QUORUM_PERCENTAGE <= MAX_U64 ->
  staked_tokens treasury * QUORUM_PERCENTAGE / 100
    <= yes_votes proposal + no_votes proposal ->
  no_votes proposal < yes_votes proposal ->
  total_funds treasury < requested_amount proposal ->
  exists e,
    execute_proposal caller now dao_treasury_address proposal_id s = Err e /\
    (e = COIN_STORE_NOT_PUBLISHED \/ e = COIN_INSUFFICIENT_BALANCE \/
     e = ARITHMETIC_ERROR) /\
    commit s (execute_proposal caller now dao_treasury_address proposal_id s) = s.
Proof.
  intros Hcat Hopen Hnot Htime Hvotes Hscaled Hquorum Hyes Hshort.
  rewrite (execute_proposal_open Hopen Hnot Htime Hvotes Hscaled). cbv zeta.
  apply N.ltb_ge in Hquorum. rewrite Hquorum.
  apply N.ltb_lt in Hyes. rewrite Hyes.
  rewrite Hcat, N.eqb_refl.
  rewrite (sub_u64_underflow _ _ Hshort).
  unfold coin_withdraw.
  destruct (coin_store s !! treasury_signer_cap treasury) as [b|]; simpl;
    [| eauto 6].
  destruct (requested_amount proposal <=? b); simpl; [| eauto 6].
  unfold coin_deposit.
  destruct (_ !! recipient proposal) as [b'|]; simpl; [| eauto 6].
  unfold add_u64. destruct (_ <=? MAX_U64); simpl; eauto 6.
Qed.
End Execute.

(** ** Inverting a successful call *)

Lemma coin_withdraw_Ok_inv (coins coins' : gmap N N) (a : address) (amount : u64) :
  coin_withdraw coins a amount = Ok coins' ->
  exists b, coins !! a = Some b /\ amount <= b /\ coins' = <[a := b - amount]> coins.
Proof.
  unfold coin_withdraw. destruct (coins !! a) as [b|]; [|discriminate].
  destruct (amount <=? b) eqn:E; [|discriminate].
  intros [= <-]. exists b. apply N.leb_le in E. auto.
Qed.

Lemma coin_deposit_Ok_inv (coins coins' : gmap N N) (a : address) (amount : u64) :
  coin_deposit coins a amount = Ok coins' ->
  exists b, coins !! a = Some b /\ b + amount <= MAX_U64 /\
            coins' = <[a := b + amount]> coins.
Proof.
  unfold coin_deposit. destruct (coins !! a) as [b|]; [|discriminate].
  intros H. apply bind_Ok_inv in H. destruct H as (b' & Hadd & [= <-]).
  apply add_u64_Ok_inv in Hadd. destruct Hadd as [-> Hle]. eauto.
Qed.

(** Breaks an equation [f ... = Ok s'] of the monad into the facts that
    made every step succeed. *)
Ltac invert_ok :=
  repeat match goal with
  | H : bind _ _ = Ok _ |- _ =>
      apply bind_Ok_inv in H; destruct H as (? & ? & H)
  | H : assert _ _ = Ok _ |- _ => apply assert_Ok_inv in H
  | H : borrow_global _ _ = Ok _ |- _ => apply borrow_global_Ok_inv in H
  | H : move_to _ _ _ = Ok _ |- _ =>
      apply move_to_Ok_inv in H; destruct H as [? ->]
  | H : table_borrow _ _ = Ok _ |- _ => apply table_borrow_Ok_inv in H
  | H : table_add _ _ _ = Ok _ |- _ =>
      apply table_add_Ok_inv in H; destruct H as [? ->]
  | H : add_u64 _ _ = Ok _ |- _ =>
      apply add_u64_Ok_inv in H; destruct H as [-> ?]
  | H : sub_u64 _ _ = Ok _ |- _ =>
      apply sub_u64_Ok_inv in H; destruct H as [-> ?]
  | H : mul_u64 _ _ = Ok _ |- _ =>
      apply mul_u64_Ok_inv in H; destruct H as [-> ?]
  | H : coin_withdraw _ _ _ = Ok _ |- _ =>
      apply coin_withdraw_Ok_inv in H; destruct H as (? & ? & ? & ->)
  | H : coin_deposit _ _ _ = Ok _ |- _ =>
      apply coin_deposit_Ok_inv in H; destruct H as (? & ? & ? & ->)
  | H : (let '(_, _) := ?x in _) = Ok _ |- _ => destruct x
  | H : (if ?c then _ else _) = Ok _ |- _ => destruct c eqn:?
  | H : Err _ = Ok _ |- _ => discriminate H
  | H : Ok _ = Ok _ |- _ => injection H as H; try subst
  end.

(** Case analysis on the call, each case inverted. *)
Ltac invert_step H :=
  match type of H with
  | step _ _ ?op _ = Ok _ =>
      destruct op; simpl in H;
      unfold initialize_dao, join_dao, deposit_funds, stake_tokens, transfer_tokens,
        create_investment_proposal, vote_on_proposal, execute_proposal,
        distribute_tokens, emergency_pause, emergency_unpause in H;
      invert_ok; simpl in *
  end.

(** Looks a key up in the maps a call wrote. *)
Ltac lookup_cases :=
  repeat match goal with
  | H : <[?k := _]> _ !! ?k' = Some _ |- _ =>
      destruct (decide (k = k')) as [?|?];
      [ subst; rewrite lookup_insert_eq in H; injection H as H; try subst
      | rewrite lookup_insert_ne in H by assumption ]
  | H : ∅ !! _ = Some _ |- _ => rewrite lookup_empty in H; discriminate H
  end.

(** ** The recorded token supply *)

Lemma step_total_governance_tokens cra now op s s' :
  step cra now op s = Ok s' ->
  (forall a t, treasuries s !! a = Some t ->
               total_governance_tokens t = INITIAL_TOKEN_SUPPLY) ->
  forall a t, treasuries s' !! a = Some t ->
              total_governance_tokens t = INITIAL_TOKEN_SUPPLY.
Proof.
  intros Hstep IH a t Ht.
  invert_step Hstep; lookup_cases; simpl; eauto.
Qed.

Ltac lookup_goal :=
  repeat match goal with
  | |- context [<[?k := _]> _ !! ?k'] =>
      destruct (decide (k = k')) as [?|?];
      [ subst; rewrite lookup_insert_eq
      | rewrite lookup_insert_ne by assumption ]
  end.

Lemma step_keeps_total_governance_tokens cra now op s s' a t :
  step cra now op s = Ok s' ->
  treasuries s !! a = Some t ->
  exists t', treasuries s' !! a = Some t' /\
             total_governance_tokens t' = total_governance_tokens t.
Proof.
  intros Hstep Ht.
  invert_step Hstep; lookup_goal; try congruence; eauto;
    eexists; (split; [reflexivity|]); simpl; congruence.
Qed.

Lemma reachable_total_governance_tokens cra s :
  reachable cra s ->
  forall a t, treasuries s !! a = Some t ->
              total_governance_tokens t = INITIAL_TOKEN_SUPPLY.
Proof.
  induction 1 as [s [Hts _] | s s' now op _ IH Hstep].
  - intros a t Ht. rewrite Hts, lookup_empty in Ht. discriminate.
  - exact (step_total_governance_tokens _ _ _ _ _ Hstep IH).
Qed.

(** Tokens appear in members' balances without the treasury taking note. *)
Lemma join_dao_mints account now s s' :
  join_dao account now s = Ok s' ->
  treasuries s' = treasuries s /\
  members s !! account = None /\
  exists m, members s' !! account = Some m /\ holdings m = 100.
Proof.
  intros H. unfold join_dao in H. invert_ok. simpl.
  split; [reflexivity|]. split; [assumption|].
  eexists. split; [apply lookup_insert_eq | reflexivity].
Qed.

Lemma vote_on_proposal_mints account now t pid vote s s' m :
  vote_on_proposal account now t pid vote s = Ok s' ->
  members s !! account = Some m ->
  exists m', members s' !! account = Some m' /\
             holdings m' = holdings m + PARTICIPATION_REWARD.
Proof.
  intros H Hm. unfold vote_on_proposal in H. invert_ok; simpl;
    (eexists; split; [apply lookup_insert_eq|]);
    unfold holdings; simpl;
    match goal with
    | H1 : members s !! account = Some ?x |- _ =>
        assert (x = m) as -> by congruence
    end; lia.
Qed.

Lemma distribute_tokens_mints account t recipient amount reason s s' m :
  distribute_tokens account t recipient amount reason s = Ok s' ->
  members s !! recipient = Some m ->
  treasuries s' = treasuries s /\
  exists m', members s' !! recipient = Some m' /\
             holdings m' = holdings m + amount.
Proof.
  intros H Hm. unfold distribute_tokens in H. invert_ok; simpl.
  split; [reflexivity|].
  eexists; split; [apply lookup_insert_eq|].
  unfold holdings; simpl.
  match goal with
  | H1 : members s !! recipient = Some ?x |- _ =>
      assert (x = m) as -> by congruence
  end; lia.
Qed.

(** C10. In every reachable state the recorded supply
    [total_governance_tokens] of every treasury is the initial 1,000,000,
    and no call changes it; yet [join_dao] gives a new member 100 tokens,
    a vote gives the voter 10 and [distribute_tokens] gives the recipient
    [amount], none of which the recorded supply reflects. *)
Theorem total_governance_tokens_fixed cra s :
  reachable cra s ->
  (forall a t, treasuries s !! a = Some t ->
               total_governance_tokens t = 1000000) /\
  (forall now op s' a t,
      step cra now op s = Ok s' -> treasuries s !! a = Some t ->
      exists t', treasuries s' !! a = Some t' /\
                 total_governance_tokens t' = total_governance_tokens t) /\
  (forall now account s',
      step cra now (JoinDao account) s = Ok s' ->
      treasuries s' = treasuries s /\
      members s !! account = None /\
      exists m, members s' !! account = Some m /\ holdings m = 100) /\
  (forall now account t pid vote s' m,
      step cra now (VoteOnProposal account t pid vote) s = Ok s' ->
      members s !! account = Some m ->
      exists m', members s' !! account = Some m' /\
                 holdings m' = holdings m + 10) /\
  (forall now account t recipient amount reason s' m,
      step cra now (DistributeTokens account t recipient amount reason) s = Ok s' ->
      members s !! recipient = Some m ->
      treasuries s' = treasuries s /\
      exists m', members s' !! recipient = Some m' /\
                 holdings m' = holdings m + amount).
Proof.
  intros Hreach. split; [|split; [|split; [|split]]].
  - intros a t Ht. exact (reachable_total_governance_tokens _ _ Hreach a t Ht).
  - intros now op s' a t. apply step_keeps_total_governance_tokens.
  - intros now account s' Hstep. exact (join_dao_mints _ _ _ _ Hstep).
  - intros now account t pid vote s' m. apply vote_on_proposal_mints.
  - intros now account t recipient amount reason s' m.
    apply distribute_tokens_mints.
Qed.

(** ** Members' holdings *)

(** C8. Whatever the call and whether it commits or aborts, a member's
    [balance + staked_balance] afterwards is at least what it was, unless
    the call is a transfer that the member sends; staking leaves the sum
    as it was. *)
Theorem holdings_never_decrease cra now op s a m :
  members s !! a = Some m ->
  ~ is_transfer_from a op ->
  exists m', members (commit s (step cra now op s)) !! a = Some m' /\
             holdings m <= holdings m' /\
             (forall account t amount,
                 op = StakeTokens account t amount -> holdings m' = holdings m).
Proof.
  intros Hm Hnot.
  destruct (step cra now op s) as [s'|e] eqn:Hstep; simpl;
    [| exists m; split; [assumption | split; [lia | reflexivity]]].
  unfold holdings.
  invert_step Hstep; lookup_cases; lookup_goal;
    try contradiction; try congruence;
    repeat match goal with
    | H1 : members s !! ?k = Some ?x, H2 : members s !! ?k = Some ?y |- _ =>
        assert (x = y) as -> by congruence; clear H1
    end;
    (eexists; split; [first [reflexivity | eassumption] |]);
    simpl; (split; [lia | intros; first [discriminate | lia]]).
Qed.

(** ** Executing twice *)

Lemma step_resolved_when_executed cra now op s s' :
  step cra now op s = Ok s' ->
  resolved_when_executed s -> resolved_when_executed s'.
Proof.
  intros Hstep IH a t pid p Ht Hp Hex.
  invert_step Hstep; lookup_cases; simpl in *; lookup_cases; simpl in *;
    try discriminate; eauto.
Qed.

Lemma reachable_resolved_when_executed cra s :
  reachable cra s -> resolved_when_executed s.
Proof.
  induction 1 as [s [Hts _] | s s' now op _ IH Hstep].
  - intros a t pid p Ht. rewrite Hts, lookup_empty in Ht. discriminate.
  - exact (step_resolved_when_executed _ _ _ _ _ Hstep IH).
Qed.

(** The assertion on the status comes first: a proposal that is not open
    is refused with [E_PROPOSAL_NOT_OPEN] whatever its [executed] flag. *)
Lemma execute_proposal_not_open caller now a pid s t p :
  treasuries s !! a = Some t ->
  proposals t !! pid = Some p ->
  status p <> 0 ->
  execute_proposal caller now a pid s = Err (Abort E_PROPOSAL_NOT_OPEN).
Proof.
  intros Ht Hp Hst. unfold execute_proposal.
  rewrite (borrow_global_ok _ _ _ Ht); simpl.
  rewrite (table_borrow_ok _ _ _ Hp); simpl.
  apply N.eqb_neq in Hst. rewrite Hst. reflexivity.
Qed.

(** C5, as the code has it. In a reachable state, executing a proposal
    whose [executed] flag is set aborts with [E_PROPOSAL_NOT_OPEN] (the
    status is terminal and its assertion is the first one), and the storage
    stays as it was. *)
Theorem execute_twice_not_open cra caller now a pid s t p :
  reachable cra s ->
  treasuries s !! a = Some t ->
  proposals t !! pid = Some p ->
  executed p = true ->
  execute_proposal caller now a pid s = Err (Abort E_PROPOSAL_NOT_OPEN) /\
  commit s (execute_proposal caller now a pid s) = s.
Proof.
  intros Hreach Ht Hp Hex.
  assert (status p <> 0) as Hst
    by exact (reachable_resolved_when_executed _ _ Hreach a t pid p Ht Hp Hex).
  rewrite (execute_proposal_not_open caller now a pid s t p Ht Hp Hst).
  split; reflexivity.
Qed.

(** ** Who may execute *)

(** Execution never looks at the member records. *)
Lemma execute_proposal_ignores_members caller now a pid s ms :
  execute_proposal caller now a pid (set_members s ms) =
  with_members ms (execute_proposal caller now a pid s).
Proof.
  unfold execute_proposal.
  cbn [treasuries coin_store set_members].
  destruct (borrow_global (treasuries s) a) as [t|e]; [|reflexivity].
  cbn [bind].
  destruct (table_borrow (proposals t) pid) as [p|e]; [|reflexivity].
  cbn [bind].
  destruct (assert (status p =? 0) E_PROPOSAL_NOT_OPEN); [|reflexivity].
  cbn [bind].
  destruct (assert (negb (executed p)) E_PROPOSAL_ALREADY_EXECUTED); [|reflexivity].
  cbn [bind].
  destruct (assert (execution_time p <=? now) E_PROPOSAL_NOT_READY); [|reflexivity].
  cbn [bind].
  destruct (add_u64 (yes_votes p) (no_votes p)) as [v|e]; [|reflexivity].
  cbn [bind].
  destruct (mul_u64 (staked_tokens t) QUORUM_PERCENTAGE) as [q|e]; [|reflexivity].
  cbn [bind].
  destruct (v <? q / 100); [reflexivity|].
  destruct (no_votes p <? yes_votes p); [|reflexivity].
  destruct (category p =? CATEGORY_FUNDING); [|reflexivity].
  destruct (coin_withdraw (coin_store s) (treasury_signer_cap t) (requested_amount p))
    as [c|e]; [|reflexivity].
  cbn [bind].
  destruct (coin_deposit c (recipient p) (requested_amount p)) as [c'|e];
    [|reflexivity].
  cbn [bind].
  destruct (sub_u64 (total_funds t) (requested_amount p)) as [f|e]; reflexivity.
Qed.

(** C9. [execute_proposal] never reads its signer: two callers, whoever
    they are, get the same result (the same storage with the same event,
    or the same abort) from the same storage at the same time; and the
    result does not depend on the member records at all, so being a member
    or not makes no difference. *)
Theorem execute_proposal_any_caller cra caller1 caller2 now a pid s :
  execute_proposal caller1 now a pid s = execute_proposal caller2 now a pid s /\
  step cra now (ExecuteProposal caller1 a pid) s
    = step cra now (ExecuteProposal caller2 a pid) s /\
  (forall ms, execute_proposal caller1 now a pid (set_members s ms)
              = with_members ms (execute_proposal caller2 now a pid s)).
Proof.
  split; [reflexivity|]. split; [reflexivity|].
  intros ms. rewrite <- (execute_proposal_ignores_members caller2). reflexivity.
Qed.

(** ** The pause flag *)

Lemma join_dao_never_paused account now s :
  join_dao account now s <> Err (Abort E_DAO_PAUSED).
Proof.
  unfold join_dao, move_to. destruct (members s !! account); simpl; discriminate.
Qed.

Lemma transfer_tokens_never_paused account recipient amount s :
  transfer_tokens account recipient amount s <> Err (Abort E_DAO_PAUSED).
Proof.
  unfold transfer_tokens, borrow_global.
  destruct (members s !! account) as [m|]; simpl; [|discriminate].
  destruct (amount <=? balance (governance_tokens m)) eqn:Hle; simpl; [|discriminate].
  unfold sub_u64. rewrite Hle. simpl.
  destruct (_ !! recipient) as [m'|]; simpl; [|discriminate].
  unfold add_u64. destruct (_ <=? MAX_U64); simpl; discriminate.
Qed.

(** C3, as the code has it. When the treasury at [a] is paused, the four
    calls that take it and assert [!paused] (deposit, stake, create
    proposal, vote) abort with [E_DAO_PAUSED] as soon as the treasury and,
    for the last three, the caller's member record have been borrowed,
    and the storage stays as it was.  [join_dao] and [transfer_tokens]
    take no treasury and never abort with [E_DAO_PAUSED]. *)
Theorem paused_treasury_guard cra a t s :
  treasuries s !! a = Some t ->
  paused t = true ->
  (forall now op,
      checks_pause a op -> caller_record_found s op ->
      step cra now op s = Err (Abort E_DAO_PAUSED) /\
      commit s (step cra now op s) = s) /\
  (forall now account,
      step cra now (JoinDao account) s <> Err (Abort E_DAO_PAUSED)) /\
  (forall now account recipient amount,
      step cra now (TransferTokens account recipient amount) s
        <> Err (Abort E_DAO_PAUSED)).
Proof.
  intros Ht Hpaused. split; [|split].
  - intros now op Hop Hcaller.
    assert (step cra now op s = Err (Abort E_DAO_PAUSED)) as ->;
      [| split; reflexivity].
    destruct op; simpl in Hop, Hcaller; try contradiction; subst; simpl.
    + unfold deposit_funds. rewrite (borrow_global_ok _ _ _ Ht); simpl.
      rewrite Hpaused. reflexivity.
    + destruct Hcaller as [m Hm]. unfold stake_tokens.
      rewrite (borrow_global_ok _ _ _ Ht); simpl.
      rewrite (borrow_global_ok _ _ _ Hm); simpl.
      rewrite Hpaused. reflexivity.
    + destruct Hcaller as [m Hm]. unfold create_investment_proposal.
      rewrite (borrow_global_ok _ _ _ Ht); simpl.
      rewrite (borrow_global_ok _ _ _ Hm); simpl.
      rewrite Hpaused. reflexivity.
    + destruct Hcaller as [m Hm]. unfold vote_on_proposal.
      rewrite (borrow_global_ok _ _ _ Ht); simpl.
      rewrite (borrow_global_ok _ _ _ Hm); simpl.
      rewrite Hpaused. reflexivity.
  - intros now account. apply join_dao_never_paused.
  - intros now account recipient amount. apply transfer_tokens_never_paused.
Qed.

(** ** Reading a proposal that is not there *)

Lemma repeat_view_all {A : Type} (n : nat) (view : State -> result A) (s : State) :
  Forall (fun r => r = view s) (repeat_view n view s).
Proof. induction n as [|n IH]; simpl; constructor; auto. Qed.

(** C7, as the code has it. For a proposal id that is not in the table of
    an existing treasury the view aborts with the table's not-found abort:
    it returns no record, whole or partial, and it does so at every one of
    any number of repeated calls. *)
Theorem get_proposal_info_missing a pid s t n :
  treasuries s !! a = Some t ->
  proposals t !! pid = None ->
  get_proposal_info a pid s = Err TABLE_NOT_FOUND /\
  is_fault (get_proposal_info a pid s) = true /\
  Forall (fun r => r = Err TABLE_NOT_FOUND)
    (repeat_view n (get_proposal_info a pid) s).
Proof.
  intros Ht Hp.
  assert (get_proposal_info a pid s = Err TABLE_NOT_FOUND) as Hq.
  { unfold get_proposal_info.
    rewrite (borrow_global_ok _ _ _ Ht); simpl.
    rewrite (table_borrow_missing _ _ Hp). reflexivity. }
  split; [exact Hq|]. split; [rewrite Hq; reflexivity|].
  rewrite <- Hq. apply repeat_view_all.
Qed.

(** ** The example chains *)

Lemma run_reachable cra calls s s' :
  reachable cra s -> run cra calls s = Ok s' -> reachable cra s'.
Proof.
  revert s. induction calls as [|[now op] calls IH]; intros s Hs Hrun; simpl in Hrun.
  - injection Hrun as <-. exact Hs.
  - apply bind_Ok_inv in Hrun. destruct Hrun as (s1 & Hstep & Hrun).
    apply (IH s1); [|exact Hrun].
    exact (reachable_step _ _ _ _ _ Hs Hstep).
Qed.

Lemma play_reachable calls s :
  genesis s -> reachable example_resource_address (play calls s).
Proof.
  intros Hs. unfold play.
  destruct (run example_resource_address calls s) as [s'|e] eqn:Hrun; simpl.
  - apply (run_reachable _ calls s); [apply reachable_genesis; exact Hs | exact Hrun].
  - apply reachable_genesis; exact Hs.
Qed.

Lemma example_genesis_is_genesis : genesis example_genesis.
Proof. split; reflexivity. Qed.

Lemma prefunded_genesis_is_genesis : genesis prefunded_genesis.
Proof. split; reflexivity. Qed.

(** Decides a closed goal about an example chain by evaluating it. *)
Ltac evaluate :=
  first [ reflexivity
        | vm_compute; first [ reflexivity | discriminate | congruence ] ].

(** C1 on the passing chain: 300 yes against 100 no with 389 staked; the
    1000 coins go from account 1001 to account 7. *)
Lemma execute_funding_passes_witness :
  exists s',
    execute_proposal 2 700000 1001 0 passing_state = Ok s' /\
    coin_store passing_state !! 1001 = Some 3000 /\
    coin_store s' !! 1001 = Some 2000 /\
    coin_store s' !! 7 = Some 1000 /\
    events s' = events passing_state ++ [ProposalExecutedEvent 0 0 1000].
Proof.
  edestruct (execute_funding_passes 2 700000 1001 0 passing_state)
    as (s' & t' & p' & Hexec & Hmoved & _ & _ & _ & _ & _ & _ & _ & _ & _ & Hevents).
  1-15: evaluate.
  destruct Hmoved as [Hcustody Hrecipient]; [evaluate|].
  exists s'. split; [exact Hexec|]. split; [evaluate|].
  split; [exact Hcustody|]. split; [exact Hrecipient|]. exact Hevents.
Defined.

(** C2 on the spec's numbers: 1000 staked, 150 yes and 40 no. *)
Lemma execute_quorum_not_met_witness :
  exists s',
    execute_proposal 2 700000 1001 0 below_quorum_state = Ok s' /\
    coin_store s' = coin_store below_quorum_state /\
    events s' = events below_quorum_state ++ [ProposalExecutedEvent 0 2 0].
Proof.
  edestruct (execute_quorum_not_met 2 700000 1001 0 below_quorum_state)
    as (s' & t' & p' & Hexec & _ & _ & _ & _ & _ & _ & Hcoins & _ & Hevents).
  1-8: evaluate.
  exists s'. split; [exact Hexec|]. split; [exact Hcoins | exact Hevents].
Defined.

(** C6 on the tied chain: 100 yes and 100 no with 189 staked. *)
Lemma execute_tie_rejected_witness :
  exists s',
    execute_proposal 2 700000 1001 0 tied_state = Ok s' /\
    coin_store s' = coin_store tied_state /\
    events s' = events tied_state ++ [ProposalExecutedEvent 0 1 0].
Proof.
  edestruct (execute_tie_rejected 2 700000 1001 0 tied_state)
    as (s' & t' & p' & Hexec & _ & _ & _ & _ & _ & _ & Hcoins & _ & Hevents).
  1-9: evaluate.
  exists s'. split; [exact Hexec|]. split; [exact Hcoins | exact Hevents].
Defined.

(** Counterexample to C3 as the specification words it: with the only treasury paused, a transfer of 50
    tokens from account 1 to account 2 goes through, and so does the
    execution of a proposal. *)
Lemma paused_transfer_goes_through :
  (exists t, treasuries paused_state !! 1001 = Some t /\ paused t = true) /\
  transfer_tokens 1 2 50 paused_state <> Err (Abort E_DAO_PAUSED) /\
  (exists s' m m',
      transfer_tokens 1 2 50 paused_state = Ok s' /\
      members paused_state !! 2 = Some m /\
      members s' !! 2 = Some m' /\
      balance (governance_tokens m) = 100 /\
      balance (governance_tokens m') = 150).
Proof.
  split; [eexists; split; evaluate|].
  split; [apply transfer_tokens_never_paused|].
  do 3 eexists. repeat split; evaluate.
Defined.

(** The other unguarded calls on the same paused DAO. *)
Lemma paused_join_goes_through :
  is_fault (join_dao 3 20 paused_state) = false.
Proof. evaluate. Qed.

Lemma paused_distribute_goes_through :
  is_fault (distribute_tokens 1 1001 2 500 "grant" paused_state) = false.
Proof. evaluate. Qed.

Lemma paused_execute_goes_through :
  is_fault
    (execute_proposal 2 700000 1001 0
       (play [(30, EmergencyPause 1 1001)] passing_state)) = false.
Proof. evaluate. Qed.

(** The guard on the paused example DAO: a deposit is refused. *)
Lemma paused_treasury_guard_witness :
  step example_resource_address 20 (DepositFunds 1 1001 100) paused_state
    = Err (Abort E_DAO_PAUSED) /\
  step example_resource_address 20 (StakeTokens 2 1001 10) paused_state
    = Err (Abort E_DAO_PAUSED).
Proof.
  edestruct (paused_treasury_guard example_resource_address 1001) with (s := paused_state)
    as (Hguard & _ & _).
  1-2: evaluate.
  split.
  - apply (Hguard 20 (DepositFunds 1 1001 100)); [reflexivity | exact I].
  - apply (Hguard 20 (StakeTokens 2 1001 10)); [reflexivity |].
    eexists. evaluate.
Defined.

(** Counterexample to C5 as the specification words it: the tied proposal has been executed (its flag is
    set, its status is Rejected); executing it again aborts with
    [E_PROPOSAL_NOT_OPEN], not with [E_PROPOSAL_ALREADY_EXECUTED]. *)
Lemma second_execute_not_already_executed :
  (exists t p, treasuries executed_state !! 1001 = Some t /\
               proposals t !! 0 = Some p /\
               executed p = true /\ status p = 2) /\
  execute_proposal 2 700001 1001 0 executed_state
    = Err (Abort E_PROPOSAL_NOT_OPEN) /\
  execute_proposal 2 700001 1001 0 executed_state
    <> Err (Abort E_PROPOSAL_ALREADY_EXECUTED).
Proof.
  split; [do 2 eexists; repeat split; evaluate|].
  split; evaluate.
Defined.

Lemma execute_twice_not_open_witness :
  execute_proposal 2 700001 1001 0 executed_state
    = Err (Abort E_PROPOSAL_NOT_OPEN) /\
  commit executed_state (execute_proposal 2 700001 1001 0 executed_state)
    = executed_state.
Proof.
  eapply (execute_twice_not_open example_resource_address 2 700001 1001 0
            executed_state).
  - apply play_reachable, example_genesis_is_genesis.
  - evaluate.
  - evaluate.
  - evaluate.
Defined.

(** Counterexample to C7 as the specification words it: proposal 5 does not exist in the example DAO and
    the view faults. *)
Lemma get_proposal_info_faults :
  (exists t, treasuries executed_state !! 1001 = Some t /\
             proposals t !! 5 = None) /\
  is_fault (get_proposal_info 1001 5 executed_state) = true.
Proof.
  split; [eexists; split; evaluate | evaluate].
Defined.

Lemma get_proposal_info_missing_witness :
  get_proposal_info 1001 5 executed_state = Err TABLE_NOT_FOUND /\
  Forall (fun r => r = Err TABLE_NOT_FOUND)
    (repeat_view 3 (get_proposal_info 1001 5) executed_state).
Proof.
  edestruct (get_proposal_info_missing 1001 5 executed_state) with (n := 3%nat)
    as (Hq & _ & Hall).
  1-2: evaluate.
  split; [exact Hq | exact Hall].
Defined.

(** C8 on the passing chain: member 2 stakes 5 more tokens and still
    holds 110; the founder sends member 2 fifty tokens and member 2 holds
    more. *)
Lemma holdings_never_decrease_witness :
  exists m m',
    members passing_state !! 2 = Some m /\
    members (commit passing_state
               (step example_resource_address 30 (StakeTokens 2 1001 5)
                  passing_state)) !! 2 = Some m' /\
    holdings m = 110 /\
    holdings m' = holdings m.
Proof.
  edestruct (holdings_never_decrease example_resource_address 30
               (StakeTokens 2 1001 5) passing_state 2)
    as (m' & Hm' & Hle & Hstake).
  - evaluate.
  - simpl. exact (fun H => H).
  - eexists. exists m'. split; [evaluate|]. split; [exact Hm'|].
    split; [evaluate|]. exact (Hstake 2 1001 5 eq_refl).
Defined.

(** C10 on the passing chain, where 500,000 + 100 + 2 * 10 tokens have
    been handed out. *)
Lemma total_governance_tokens_fixed_witness :
  reachable example_resource_address passing_state /\
  exists t, treasuries passing_state !! 1001 = Some t /\
            total_governance_tokens t = 1000000.
Proof.
  assert (reachable example_resource_address passing_state) as Hreach
    by (apply play_reachable, example_genesis_is_genesis).
  split; [exact Hreach|].
  eexists. split; [evaluate|].
  apply (proj1 (total_governance_tokens_fixed example_resource_address
                  passing_state Hreach) 1001).
  evaluate.
Defined.

(** The recorded supply falls behind what members hold: once the admin
    has distributed 600,000 tokens to the founder, the founder alone holds
    more than the recorded 1,000,000. *)
Lemma supply_not_tracked :
  let s := play [(10, InitializeDao 1 []);
                 (11, DistributeTokens 1 1001 1 600000 "bonus")] example_genesis in
  reachable example_resource_address s /\
  exists t m, treasuries s !! 1001 = Some t /\ members s !! 1 = Some m /\
              total_governance_tokens t = 1000000 /\ holdings m = 1100000.
Proof.
  split; [apply play_reachable, example_genesis_is_genesis|].
  do 2 eexists. repeat split; evaluate.
Qed.

(** C4 on the shortfall chains. The second proposal asks for 1000 when
    the treasury records 0.  When the treasury account still holds coins
    (it was sent 2000 before the DAO was founded) the coins are withdrawn
    and deposited and the decrement of [total_funds] underflows: the call
    aborts with the VM's arithmetic error.  When it holds none the coin
    framework refuses the withdrawal.  Neither is an error code of the
    module, and [E_INSUFFICIENT_FUNDS], which the creation of a proposal
    raises for the same shortfall, is not raised here. *)
Theorem execute_shortfall_fault :
  reachable example_resource_address prefunded_shortfall_state /\
  (exists t p, treasuries prefunded_shortfall_state !! 1001 = Some t /\
               proposals t !! 1 = Some p /\
               category p = CATEGORY_FUNDING /\ status p = 0 /\
               no_votes p < yes_votes p /\
               total_funds t = 0 /\ requested_amount p = 1000) /\
  execute_proposal 1 700001 1001 1 prefunded_shortfall_state
    = Err ARITHMETIC_ERROR /\
  execute_proposal 1 700001 1001 1 shortfall_state
    = Err COIN_INSUFFICIENT_BALANCE /\
  create_investment_proposal 1 700001 1001 "Third" "More" 0 7 1000 shortfall_state
    = Err (Abort E_INSUFFICIENT_FUNDS).
Proof.
  split; [apply play_reachable, prefunded_genesis_is_genesis|].
  split; [do 2 eexists; repeat split; evaluate|].
  repeat split; evaluate.
Qed.

(** * Further properties of the module *)

(** ** More tactics for lookups *)

Ltac lookup_none :=
  repeat match goal with
  | H : <[_ := _]> _ !! _ = None |- _ =>
      apply lookup_insert_None in H; destruct H as [H ?]
  end.


Ltac same_lookups :=
  repeat match goal with
  | H1 : ?l = Some ?x, H2 : ?l = Some ?y |- _ =>
      assert (x = y) as -> by congruence; clear H1
  end.

(** ** Sums over a map *)

Lemma sum_map_empty {A : Type} (f : A -> N) : sum_map f ∅ = 0.
Proof. apply map_fold_empty. Qed.

Lemma sum_map_insert_None {A : Type} (f : A -> N) (m : gmap N A) (k : N) (v : A) :
  m !! k = None -> sum_map f (<[k := v]> m) = f v + sum_map f m.
Proof.
  intros H. unfold sum_map.
  apply (map_fold_insert_L (fun _ v acc => f v + acc)); [|exact H].
  intros. lia.
Qed.

Lemma sum_map_insert_Some {A : Type} (f : A -> N) (m : gmap N A) (k : N) (v v0 : A) :
  m !! k = Some v0 -> sum_map f (<[k := v]> m) + f v0 = f v + sum_map f m.
Proof.
  intros H. rewrite <- (insert_delete_eq m).
  rewrite sum_map_insert_None by apply lookup_delete_eq.
  unfold sum_map at 2.
  rewrite (map_fold_delete_L (fun _ v acc => f v + acc) 0 k v0 m);
    [|intros; lia|exact H].
  fold (sum_map f (delete k m)). lia.
Qed.

(** ** What holds of every stored proposal *)

Lemma genesis_every_proposal P s : genesis s -> every_proposal P s.
Proof.
  intros [Hts _] a t pid p Ht. rewrite Hts, lookup_empty in Ht. discriminate.
Qed.

Lemma step_proposal_as_created cra now op s s' :
  step cra now op s = Ok s' ->
  every_proposal proposal_as_created s -> every_proposal proposal_as_created s'.
Proof.
  intros Hstep IH a t pid p Ht Hp.
  invert_step Hstep; lookup_cases; simpl in *; lookup_cases; simpl in *;
    try (eapply IH; eassumption);
    try (match goal with
         | H : proposals _ !! _ = Some ?q |- _ =>
             let W := fresh in
             assert (proposal_as_created pid q) as W by (eapply IH; eassumption);
             exact W
         end).
  all: unfold proposal_as_created; simpl.
  all: repeat match goal with
         | H : (_ <=? _) = true |- _ => apply N.leb_le in H
         end.
  all: repeat split; try reflexivity; try assumption.
Qed.

Lemma step_proposal_lifecycle cra now op s s' :
  step cra now op s = Ok s' ->
  every_proposal (fun _ => proposal_lifecycle) s ->
  every_proposal (fun _ => proposal_lifecycle) s'.
Proof.
  intros Hstep IH a t pid p Ht Hp.
  invert_step Hstep; lookup_cases; simpl in *; lookup_cases; simpl in *;
    try (eapply IH; eassumption);
    try (match goal with
         | H : proposals _ !! _ = Some ?q |- _ =>
             let W := fresh in
             assert (proposal_lifecycle q) as W by (eapply IH; eassumption);
             exact W
         end).
  all: unfold proposal_lifecycle; simpl.
  all: split; [ auto 6 | split; intros; first [reflexivity | discriminate] ].
Qed.

Lemma step_tally_matches_voters cra now op s s' :
  step cra now op s = Ok s' ->
  every_proposal (fun _ => tally_matches_voters) s ->
  every_proposal (fun _ => tally_matches_voters) s'.
Proof.
  intros Hstep IH a t pid p Ht Hp.
  invert_step Hstep; lookup_cases; simpl in *; lookup_cases; simpl in *;
    try (eapply IH; eassumption);
    try (match goal with
         | H : proposals _ !! _ = Some ?q |- _ =>
             let W := fresh in
             assert (tally_matches_voters q) as W by (eapply IH; eassumption);
             first [ exact W
                   | unfold tally_matches_voters in *; simpl;
                     rewrite sum_map_insert_None by assumption; lia ]
         end).
  all: unfold tally_matches_voters; simpl; rewrite sum_map_empty; reflexivity.
Qed.

Lemma step_ids_dense cra now op s s' :
  step cra now op s = Ok s' -> ids_dense s -> ids_dense s'.
Proof.
  intros Hstep IH a t pid Ht.
  invert_step Hstep; lookup_cases; simpl in *;
    try (eapply IH; eassumption).
  all: match goal with
       | |- context [∅ !! _] =>
           rewrite lookup_empty; split; [intros [? [=]] | lia]
       | Hx : treasuries _ !! ?b = Some ?x
         |- context [<[?k := _]> (proposals ?x) !! ?q] =>
           pose proof (IH b x q Hx) as IHp;
           pose proof (IH b x k Hx) as IHk;
           destruct (decide (k = q)) as [<-|Hne];
           [ rewrite lookup_insert_eq;
             split; intros;
             first [ lia | apply IHk; eauto | eauto ]
           | rewrite lookup_insert_ne by assumption;
             first [ exact IHp | rewrite IHp; lia ] ]
       end.
Qed.

(** ** Reachable states *)

Lemma reachable_every_proposal (P : N -> InvestmentProposal -> Prop) cra :
  (forall now op s s', step cra now op s = Ok s' ->
                       every_proposal P s -> every_proposal P s') ->
  forall s, reachable cra s -> every_proposal P s.
Proof.
  intros Hstep s. induction 1 as [s Hs | s s' now op _ IH Hs].
  - apply genesis_every_proposal. exact Hs.
  - exact (Hstep _ _ _ _ Hs IH).
Qed.

Lemma reachable_ids_dense cra s : reachable cra s -> ids_dense s.
Proof.
  induction 1 as [s [Hts _] | s s' now op _ IH Hs].
  - intros a t pid Ht. rewrite Hts, lookup_empty in Ht. discriminate.
  - exact (step_ids_dense _ _ _ _ _ Hs IH).
Qed.

Lemma reachable_proposal_as_created cra s a t pid p :
  reachable cra s ->
  treasuries s !! a = Some t ->
  proposals t !! pid = Some p ->
  proposal_as_created pid p.
Proof.
  intros Hreach Ht Hp.
  exact (reachable_every_proposal proposal_as_created cra
           (step_proposal_as_created cra) s Hreach a t pid p Ht Hp).
Qed.

Lemma reachable_proposal_lifecycle cra s a t pid p :
  reachable cra s ->
  treasuries s !! a = Some t ->
  proposals t !! pid = Some p ->
  proposal_lifecycle p.
Proof.
  intros Hreach Ht Hp.
  exact (reachable_every_proposal (fun _ => proposal_lifecycle) cra
           (step_proposal_lifecycle cra) s Hreach a t pid p Ht Hp).
Qed.

(** X1. In a reachable state the proposals of a treasury are exactly the
    ids below its counter, each stored under its own id; the slot the
    next proposal will take is free. *)
Theorem proposal_ids_dense cra s a t :
  reachable cra s ->
  treasuries s !! a = Some t ->
  (forall pid, is_Some (proposals t !! pid) <-> pid < proposal_count t) /\
  (forall pid p, proposals t !! pid = Some p -> id p = pid) /\
  proposals t !! proposal_count t = None.
Proof.
  intros Hreach Ht.
  pose proof (reachable_ids_dense _ _ Hreach a t) as Hdense.
  split; [intros pid; exact (Hdense pid Ht)|]. split.
  - intros pid p Hp.
    exact (proj1 (reachable_every_proposal proposal_as_created cra
                    (step_proposal_as_created cra) s Hreach a t pid p Ht Hp)).
  - destruct (proposals t !! proposal_count t) as [p|] eqn:Hp; [|reflexivity].
    assert (proposal_count t < proposal_count t) by (apply (Hdense _ Ht); eauto).
    lia.
Qed.

Lemma proposal_ids_dense_witness :
  exists t, treasuries passing_state !! 1001 = Some t /\
            proposal_count t = 1 /\
            is_Some (proposals t !! 0) /\
            proposals t !! 1 = None.
Proof.
  eexists. split; [evaluate|]. split; [evaluate|].
  edestruct (proposal_ids_dense example_resource_address passing_state 1001)
    as (Hdense & _ & Hfree).
  - apply play_reachable, example_genesis_is_genesis.
  - evaluate.
  - split; [apply Hdense; evaluate | exact Hfree].
Defined.

(** X2. In a reachable state every stored proposal has a category among
    the three, asks for at least 1000, closes its vote 604800 seconds
    after its creation (86400 for an Emergency proposal) and becomes
    executable 86400 seconds after that. *)
Theorem proposal_schedule cra s a t pid p :
  reachable cra s ->
  treasuries s !! a = Some t ->
  proposals t !! pid = Some p ->
  category p <= 2 /\
  1000 <= requested_amount p /\
  voting_end_time p
    = creation_time p + (if category p =? 2 then 86400 else 604800) /\
  execution_time p = voting_end_time p + 86400.
Proof.
  intros Hreach Ht Hp.
  destruct (reachable_every_proposal proposal_as_created cra
              (step_proposal_as_created cra) s Hreach a t pid p Ht Hp)
    as (_ & Hcat & Hamount & Hend & Hexec).
  repeat split; assumption.
Qed.

Lemma proposal_schedule_witness :
  exists t p, treasuries passing_state !! 1001 = Some t /\
              proposals t !! 0 = Some p /\
              creation_time p = 15 /\
              voting_end_time p = 15 + 604800 /\
              execution_time p = voting_end_time p + 86400.
Proof.
  do 2 eexists. split; [evaluate|]. split; [evaluate|]. split; [evaluate|].
  edestruct (proposal_schedule example_resource_address passing_state 1001)
    with (pid := 0) as (_ & _ & Hend & Hexec).
  - apply play_reachable, example_genesis_is_genesis.
  - evaluate.
  - evaluate.
  - split; [exact Hend | exact Hexec].
Defined.

(** X3. In a reachable state the status of a proposal is 0, 1, 2 or 4
    (the value 3 that the struct's comment calls Executed is never
    written), and the status is 0 exactly when [executed] is false. *)
Theorem proposal_status_lifecycle cra s a t pid p :
  reachable cra s ->
  treasuries s !! a = Some t ->
  proposals t !! pid = Some p ->
  (status p = 0 \/ status p = 1 \/ status p = 2 \/ status p = 4) /\
  (status p = 0 <-> executed p = false).
Proof.
  intros Hreach Ht Hp.
  exact (reachable_every_proposal (fun _ => proposal_lifecycle) cra
           (step_proposal_lifecycle cra) s Hreach a t pid p Ht Hp).
Qed.

Lemma proposal_status_lifecycle_witness :
  exists t p, treasuries executed_state !! 1001 = Some t /\
              proposals t !! 0 = Some p /\
              status p = 2 /\
              (status p = 0 <-> executed p = false).
Proof.
  do 2 eexists. split; [evaluate|]. split; [evaluate|]. split; [evaluate|].
  eapply (proposal_status_lifecycle example_resource_address executed_state 1001)
    with (pid := 0).
  - apply play_reachable, example_genesis_is_genesis.
  - evaluate.
  - evaluate.
Defined.

(** X4. In a reachable state the two tallies of a proposal add up to the
    sum of the voting powers recorded in its voter table: every vote is
    counted once, with the power the voter had when voting. *)
Theorem tally_is_sum_of_voter_powers cra s a t pid p :
  reachable cra s ->
  treasuries s !! a = Some t ->
  proposals t !! pid = Some p ->
  yes_votes p + no_votes p = sum_map (fun power => power) (voters p).
Proof.
  intros Hreach Ht Hp.
  exact (reachable_every_proposal (fun _ => tally_matches_voters) cra
           (step_tally_matches_voters cra) s Hreach a t pid p Ht Hp).
Qed.

Lemma tally_is_sum_of_voter_powers_witness :
  exists t p, treasuries passing_state !! 1001 = Some t /\
              proposals t !! 0 = Some p /\
              voters p = {[ 1 := 300; 2 := 100 ]} /\
              yes_votes p + no_votes p = sum_map (fun power => power) (voters p).
Proof.
  do 2 eexists. split; [evaluate|]. split; [evaluate|]. split; [evaluate|].
  eapply (tally_is_sum_of_voter_powers example_resource_address passing_state 1001)
    with (pid := 0).
  - apply play_reachable, example_genesis_is_genesis.
  - evaluate.
  - evaluate.
Defined.

(** ** Time lock *)

(** X5. In a reachable state an open proposal cannot be executed before
    its execution time, which is 691200 seconds after its creation
    (172800 for an Emergency proposal): the call aborts with
    [E_PROPOSAL_NOT_READY]. *)
Theorem execute_time_locked cra caller now s a t pid p :
  reachable cra s ->
  treasuries s !! a = Some t ->
  proposals t !! pid = Some p ->
  status p = 0 ->
  now < creation_time p + (if category p =? 2 then 172800 else 691200) ->
  execute_proposal caller now a pid s = Err (Abort E_PROPOSAL_NOT_READY).
Proof.
  intros Hreach Ht Hp Hopen Hnow.
  destruct (reachable_proposal_lifecycle cra s a t pid p Hreach Ht Hp)
    as [_ Hexecuted].
  destruct (reachable_proposal_as_created cra s a t pid p Hreach Ht Hp)
    as (_ & _ & _ & Hend & Hexec).
  unfold execute_proposal.
  rewrite (borrow_global_ok _ _ _ Ht); simpl.
  rewrite (table_borrow_ok _ _ _ Hp); simpl.
  rewrite Hopen, (proj1 Hexecuted Hopen); simpl.
  assert (now < execution_time p) as Hlt.
  { rewrite Hexec, Hend. unfold CATEGORY_EMERGENCY, VOTING_PERIOD, EXECUTION_DELAY.
    change (604800 / 7) with 86400.
    destruct (category p =? 2); lia. }
  apply N.leb_gt in Hlt. rewrite Hlt. reflexivity.
Qed.

Lemma execute_time_locked_witness :
  execute_proposal 2 691214 1001 0 passing_state = Err (Abort E_PROPOSAL_NOT_READY).
Proof.
  eapply (execute_time_locked example_resource_address 2 691214 passing_state 1001)
    with (pid := 0).
  - apply play_reachable, example_genesis_is_genesis.
  - evaluate.
  - evaluate.
  - evaluate.
  - evaluate.
Defined.

(** X6. Voting and execution never overlap: in a reachable state, whenever
    a vote on a proposal is accepted at time [now], an execution of that
    proposal at any time before [now + 86400] aborts with
    [E_PROPOSAL_NOT_READY]. *)
Theorem vote_excludes_execute cra account caller now now' vote s s' a pid :
  reachable cra s ->
  vote_on_proposal account now a pid vote s = Ok s' ->
  now' < now + 86400 ->
  execute_proposal caller now' a pid s = Err (Abort E_PROPOSAL_NOT_READY).
Proof.
  intros Hreach Hvote Hnow.
  unfold vote_on_proposal in Hvote.
  apply bind_Ok_inv in Hvote. destruct Hvote as (t & Ht & Hvote).
  apply bind_Ok_inv in Hvote. destruct Hvote as (m & Hm & Hvote).
  apply bind_Ok_inv in Hvote. destruct Hvote as (u1 & Hpaused & Hvote).
  apply bind_Ok_inv in Hvote. destruct Hvote as (p & Hp & Hvote).
  apply bind_Ok_inv in Hvote. destruct Hvote as (u2 & Hopen & Hvote).
  apply bind_Ok_inv in Hvote. destruct Hvote as (u3 & Htime & _).
  apply borrow_global_Ok_inv in Ht. apply table_borrow_Ok_inv in Hp.
  apply assert_Ok_inv in Hopen. apply assert_Ok_inv in Htime.
  apply N.eqb_eq in Hopen. apply N.leb_le in Htime.
  destruct (reachable_proposal_lifecycle cra s a t pid p Hreach Ht Hp)
    as [_ Hexecuted].
  destruct (reachable_proposal_as_created cra s a t pid p Hreach Ht Hp)
    as (_ & _ & _ & _ & Hexec).
  unfold execute_proposal.
  rewrite (borrow_global_ok _ _ _ Ht); simpl.
  rewrite (table_borrow_ok _ _ _ Hp); simpl.
  rewrite Hopen, (proj1 Hexecuted Hopen); simpl.
  assert (now' < execution_time p) as Hlt
    by (rewrite Hexec; unfold EXECUTION_DELAY; lia).
  apply N.leb_gt in Hlt. rewrite Hlt. reflexivity.
Qed.

Lemma vote_excludes_execute_witness :
  execute_proposal 2 86000 1001 0 below_quorum_state
    = Err (Abort E_PROPOSAL_NOT_READY).
Proof.
  eapply (vote_excludes_execute example_resource_address 1 2 100 86000 true
            below_quorum_state _ 1001 0).
  - apply play_reachable, example_genesis_is_genesis.
  - evaluate.
  - evaluate.
Defined.

(** ** Voting *)

Lemma reputation_floor_step cra now op s s' :
  step cra now op s = Ok s' ->
  (forall a m, members s !! a = Some m -> 10 <= reputation_score m) ->
  forall a m, members s' !! a = Some m -> 10 <= reputation_score m.
Proof.
  intros Hstep IH a m Hm.
  invert_step Hstep; lookup_cases; simpl in *; lookup_cases; simpl in *;
    try (eapply IH; eassumption);
    try match goal with
        | H : members _ !! _ = Some ?x |- context [reputation_score ?x] =>
            pose proof (IH _ _ H)
        end;
    first [ lia | etransitivity; [eassumption | apply N.le_add_r] ].
Qed.

Lemma reputation_floor cra s :
  reachable cra s ->
  forall a m, members s !! a = Some m -> 10 <= reputation_score m.
Proof.
  induction 1 as [s [_ Hms] | s s' now op _ IH Hs].
  - intros a m Hm. rewrite Hms, lookup_empty in Hm. discriminate.
  - exact (reputation_floor_step _ _ _ _ _ Hs IH).
Qed.

(** X7. In a reachable state every member has a reputation of at least
    10, hence a voting power of at least 1: the power view never returns
    0, and a vote is never refused for lack of voting power
    ([E_INSUFFICIENT_TOKENS]). *)
Theorem voting_power_positive cra s account m :
  reachable cra s ->
  members s !! account = Some m ->
  10 <= reputation_score m /\
  (forall power, get_voting_power account s = Ok power -> 1 <= power) /\
  (forall now a pid vote,
      vote_on_proposal account now a pid vote s
        <> Err (Abort E_INSUFFICIENT_TOKENS)).
Proof.
  intros Hreach Hm.
  pose proof (reputation_floor _ _ Hreach _ _ Hm) as Hrep.
  assert (1 <= reputation_score m / 10) as Hbonus
    by (apply (N.div_le_lower_bound _ 10 1); lia).
  split; [exact Hrep|]. split.
  - intros power Hpower. unfold get_voting_power in Hpower.
    rewrite (borrow_global_ok _ _ _ Hm) in Hpower. simpl in Hpower.
    apply add_u64_Ok_inv in Hpower. lia.
  - intros now a pid vote. unfold vote_on_proposal.
    rewrite (borrow_global_ok _ _ _ Hm).
    unfold borrow_global, table_borrow.
    destruct (treasuries s !! a) as [t|]; simpl; [|discriminate].
    destruct (paused t); simpl; [discriminate|].
    destruct (proposals t !! pid) as [p|]; simpl; [|discriminate].
    destruct (status p =? 0); simpl; [|discriminate].
    destruct (now <=? voting_end_time p); simpl; [|discriminate].
    destruct (table_contains (voters p) account); simpl; [discriminate|].
    unfold add_u64 at 1.
    destruct (_ <=? MAX_U64); simpl; [|discriminate].
    assert ((0 <? staked_balance (governance_tokens m) + reputation_score m / 10)
            = true) as -> by (apply N.ltb_lt; lia).
    simpl.
    unfold table_add, table_contains.
    destruct (voters p !! account); simpl; [discriminate|].
    unfold add_u64.
    repeat (match goal with
            | |- context [if ?c then _ else _] => destruct c; simpl
            end; try discriminate).
Qed.

Lemma voting_power_positive_witness :
  get_voting_power 2 paused_state = Ok 1 /\
  vote_on_proposal 2 20 1001 0 true paused_state
    <> Err (Abort E_INSUFFICIENT_TOKENS).
Proof.
  edestruct (voting_power_positive example_resource_address paused_state 2)
    as (_ & _ & Hvote).
  - apply play_reachable, example_genesis_is_genesis.
  - evaluate.
  - split; [evaluate | apply Hvote].
Defined.

(** X8. What an accepted vote does: the power used is what the
    [get_voting_power] view reports for the voter beforehand (staked
    balance plus a tenth of the reputation), it is recorded for the voter
    in the proposal's voter table and added to the tally of the side
    chosen and to nothing else, and the event carries it with the reward
    of 10. *)
Theorem vote_records_power account now a pid vote s s' :
  vote_on_proposal account now a pid vote s = Ok s' ->
  exists power t p t' p',
    get_voting_power account s = Ok power /\
    0 < power /\
    treasuries s !! a = Some t /\
    proposals t !! pid = Some p /\
    voters p !! account = None /\
    treasuries s' !! a = Some t' /\
    proposals t' !! pid = Some p' /\
    voters p' = <[account := power]> (voters p) /\
    yes_votes p' = yes_votes p + (if vote then power else 0) /\
    no_votes p' = no_votes p + (if vote then 0 else power) /\
    events s' = events s ++ [VoteCastEvent pid account vote power 10].
Proof.
  intros Hvote. unfold vote_on_proposal in Hvote. invert_ok; simpl.
  all: match goal with
       | H : (0 <? _) = true |- _ => apply N.ltb_lt in H
       end.
  all: do 5 eexists.
  all: (split;
        [ unfold get_voting_power;
          erewrite borrow_global_ok by eassumption; simpl;
          apply add_u64_ok; assumption |]).
  all: (split; [eassumption|]).
  all: (split; [eassumption|]).
  all: (split; [eassumption|]).
  all: (split; [assumption|]).
  all: (split; [apply lookup_insert_eq|]); simpl.
  all: (split; [apply lookup_insert_eq|]); simpl.
  all: repeat split; try reflexivity; lia.
Qed.

Lemma vote_records_power_witness :
  exists power,
    get_voting_power 1 below_quorum_state = Ok power /\
    0 < power /\
    events (commit below_quorum_state
              (vote_on_proposal 1 100 1001 0 false below_quorum_state))
      = events below_quorum_state ++ [VoteCastEvent 0 1 false power 10].
Proof.
  edestruct (vote_records_power 1 100 1001 0 false below_quorum_state
               (commit below_quorum_state
                  (vote_on_proposal 1 100 1001 0 false below_quorum_state)))
    as (power & t & p & t' & p' & Hpower & Hpos & _ & _ & _ & _ & _ & _ & _ & _ & Hev).
  - evaluate.
  - exists power. split; [exact Hpower|]. split; [exact Hpos | exact Hev].
Defined.

(** X9. A member votes at most once on a proposal: right after an
    accepted vote, a second vote by the same member on the same proposal,
    either way, aborts with [E_ALREADY_VOTED] while the vote is open (and
    with [E_VOTING_ENDED] afterwards), so the tallies keep the first vote
    only. *)
Theorem vote_twice_refused account now now' vote vote' a pid s s' t p :
  treasuries s !! a = Some t ->
  proposals t !! pid = Some p ->
  vote_on_proposal account now a pid vote s = Ok s' ->
  vote_on_proposal account now' a pid vote' s'
    = Err (Abort (if now' <=? voting_end_time p
                  then E_ALREADY_VOTED else E_VOTING_ENDED)) /\
  commit s' (vote_on_proposal account now' a pid vote' s') = s'.
Proof.
  intros Ht Hp Hvote. unfold vote_on_proposal in Hvote. invert_ok.
  all: repeat match goal with
         | H1 : ?l = Some ?x, H2 : ?l = Some ?y |- _ =>
             assert (x = y) as -> by congruence; clear H1
         end.
  all: match goal with
       | |- ?call = ?r /\ _ => assert (call = r) as ->; [| split; reflexivity]
       end.
  all: unfold vote_on_proposal, borrow_global, table_borrow, table_contains; simpl;
       rewrite !lookup_insert_eq; simpl;
       rewrite !lookup_insert_eq; simpl;
       repeat match goal with
              | H : _ = true |- _ => rewrite H; simpl
              end;
       rewrite !lookup_insert_eq; simpl;
       match goal with
       | |- context [if ?c then _ else _] => destruct c; reflexivity
       end.
Qed.

Lemma vote_twice_refused_witness :
  vote_on_proposal 1 200 1001 0 true
    (commit below_quorum_state
       (vote_on_proposal 1 100 1001 0 false below_quorum_state))
  = Err (Abort E_ALREADY_VOTED).
Proof.
  edestruct (vote_twice_refused 1 100 200 false true 1001 0 below_quorum_state
               (commit below_quorum_state
                  (vote_on_proposal 1 100 1001 0 false below_quorum_state)))
    as (Hsecond & _).
  - evaluate.
  - evaluate.
  - evaluate.
  - rewrite Hsecond. evaluate.
Defined.

(** ** What a call can change *)

(** X10. No call takes anything back from a member's record: whatever the
    call, committed or aborted, the member is still there afterwards, the
    staked balance (there is no unstake), the reputation, the tokens
    earned and the counts of votes and proposals are at least what they
    were, and the joining time is the same. *)
Theorem member_record_monotone cra now op s a m :
  members s !! a = Some m ->
  exists m', members (commit s (step cra now op s)) !! a = Some m' /\
             staked_balance (governance_tokens m)
               <= staked_balance (governance_tokens m') /\
             reputation_score m <= reputation_score m' /\
             total_earned (governance_tokens m)
               <= total_earned (governance_tokens m') /\
             votes_cast m <= votes_cast m' /\
             proposals_created m <= proposals_created m' /\
             member_since m' = member_since m.
Proof.
  intros Hm.
  destruct (step cra now op s) as [s'|e] eqn:Hstep; simpl;
    [| exists m; repeat split; first [assumption | lia] ].
  invert_step Hstep; lookup_cases; lookup_goal;
    try congruence;
    repeat match goal with
    | H1 : members _ !! ?k = Some ?x, H2 : members _ !! ?k = Some ?y |- _ =>
        assert (x = y) as -> by congruence; clear H1
    end;
    (eexists; split; [first [reflexivity | eassumption] |]);
    simpl; repeat split; first [ lia | apply N.le_add_r ].
Qed.

Lemma member_record_monotone_witness :
  exists m m',
    members passing_state !! 2 = Some m /\
    members (commit passing_state
               (step example_resource_address 30 (StakeTokens 2 1001 5)
                  passing_state)) !! 2 = Some m' /\
    staked_balance (governance_tokens m) = 99 /\
    staked_balance (governance_tokens m) <= staked_balance (governance_tokens m').
Proof.
  edestruct (member_record_monotone example_resource_address 30
               (StakeTokens 2 1001 5) passing_state 2)
    as (m' & Hm' & Hstaked & _).
  - evaluate.
  - eexists. exists m'. split; [evaluate|]. split; [exact Hm'|].
    split; [evaluate | exact Hstaked].
Defined.

Lemma proposal_persists cra now op s s' a t pid p :
  step cra now op s = Ok s' ->
  treasuries s !! a = Some t ->
  proposals t !! pid = Some p ->
  exists t' p', treasuries s' !! a = Some t' /\ proposals t' !! pid = Some p'.
Proof.
  intros Hstep Ht Hp.
  destruct (treasuries s' !! a) as [t'|] eqn:Ht'.
  - destruct (proposals t' !! pid) as [p'|] eqn:Hp'; [eauto|]. exfalso.
    invert_step Hstep; lookup_cases; simpl in *; lookup_none;
      repeat match goal with
      | H1 : ?l = Some ?x, H2 : ?l = Some ?y |- _ =>
          assert (x = y) as -> by congruence; clear H1
      end;
      congruence.
  - exfalso. invert_step Hstep; lookup_none; congruence.
Qed.

Lemma proposal_changes_forward cra now op s s' a t pid p t' p' :
  step cra now op s = Ok s' ->
  treasuries s !! a = Some t ->
  proposals t !! pid = Some p ->
  treasuries s' !! a = Some t' ->
  proposals t' !! pid = Some p' ->
  id p' = id p /\ title p' = title p /\ description p' = description p /\
  category p' = category p /\ recipient p' = recipient p /\
  requested_amount p' = requested_amount p /\ proposer p' = proposer p /\
  creation_time p' = creation_time p /\
  voting_end_time p' = voting_end_time p /\
  execution_time p' = execution_time p /\
  yes_votes p <= yes_votes p' /\
  no_votes p <= no_votes p' /\
  (forall voter power, voters p !! voter = Some power ->
                       voters p' !! voter = Some power) /\
  (status p <> 0 -> p' = p).
Proof.
  intros Hstep Ht Hp Ht' Hp'.
  invert_step Hstep; lookup_cases; simpl in *; lookup_cases; simpl in *;
    repeat match goal with
    | H1 : ?l = Some ?x, H2 : ?l = Some ?y |- _ =>
        assert (x = y) as -> by congruence; clear H1
    end;
    try congruence;
    repeat match goal with
    | H : (status _ =? 0) = true |- _ => apply N.eqb_eq in H
    end;
    repeat split;
    first [ reflexivity | lia | apply N.le_add_r | congruence
          | intros voter power Hv;
            rewrite lookup_insert_ne by congruence; exact Hv
          | intros; assumption ].
Qed.

(** X11. A stored proposal is never removed, and what a committed call
    can change of it is limited: the id, the texts, the category, the
    recipient, the amount, the proposer and the three times never change;
    the tallies never go down; a voter once recorded stays recorded with
    the same power; and once the status is not 0 nothing of the proposal
    changes any more. *)
Theorem proposal_changes_bounded cra now op s s' a t pid p :
  step cra now op s = Ok s' ->
  treasuries s !! a = Some t ->
  proposals t !! pid = Some p ->
  exists t' p',
    treasuries s' !! a = Some t' /\
    proposals t' !! pid = Some p' /\
    id p' = id p /\ title p' = title p /\ description p' = description p /\
    category p' = category p /\ recipient p' = recipient p /\
    requested_amount p' = requested_amount p /\ proposer p' = proposer p /\
    creation_time p' = creation_time p /\
    voting_end_time p' = voting_end_time p /\
    execution_time p' = execution_time p /\
    yes_votes p <= yes_votes p' /\
    no_votes p <= no_votes p' /\
    (forall voter power, voters p !! voter = Some power ->
                         voters p' !! voter = Some power) /\
    (status p <> 0 -> p' = p).
Proof.
  intros Hstep Ht Hp.
  destruct (proposal_persists _ _ _ _ _ _ _ _ _ Hstep Ht Hp) as (t' & p' & Ht' & Hp').
  exists t', p'. split; [exact Ht'|]. split; [exact Hp'|].
  exact (proposal_changes_forward _ _ _ _ _ _ _ _ _ _ _ Hstep Ht Hp Ht' Hp').
Qed.

Lemma proposal_changes_bounded_witness :
  exists t p t' p',
    treasuries executed_state !! 1001 = Some t /\
    proposals t !! 0 = Some p /\
    status p = 2 /\
    treasuries (commit executed_state
                  (step example_resource_address 700002
                     (DepositFunds 1 1001 500) executed_state)) !! 1001 = Some t' /\
    proposals t' !! 0 = Some p' /\
    p' = p.
Proof.
  edestruct (proposal_changes_bounded example_resource_address 700002
               (DepositFunds 1 1001 500) executed_state
               (commit executed_state
                  (step example_resource_address 700002
                     (DepositFunds 1 1001 500) executed_state)) 1001)
    with (pid := 0)
    as (t' & p' & Ht' & Hp' & _ & _ & _ & _ & _ & _ & _ & _ & _ & _ & _ & _ & _ & Hfrozen).
  - evaluate.
  - evaluate.
  - evaluate.
  - do 2 eexists. exists t', p'.
    split; [evaluate|]. split; [evaluate|]. split; [evaluate|].
    split; [exact Ht'|]. split; [exact Hp'|].
    apply Hfrozen. evaluate.
Defined.

Lemma treasury_persists cra now op s s' a t :
  step cra now op s = Ok s' ->
  treasuries s !! a = Some t ->
  exists t', treasuries s' !! a = Some t'.
Proof.
  intros Hstep Ht.
  destruct (step_keeps_total_governance_tokens _ _ _ _ _ _ _ Hstep Ht) as (t' & Ht' & _).
  eauto.
Qed.

Lemma total_funds_forward cra now op s s' a t t' :
  step cra now op s = Ok s' ->
  treasuries s !! a = Some t ->
  treasuries s' !! a = Some t' ->
  total_funds t' = total_funds t \/
  (exists account amount,
      op = DepositFunds account a amount /\
      total_funds t' = total_funds t + amount) \/
  (exists caller pid p,
      op = ExecuteProposal caller a pid /\
      proposals t !! pid = Some p /\
      category p = CATEGORY_FUNDING /\
      no_votes p < yes_votes p /\
      requested_amount p <= total_funds t /\
      total_funds t' = total_funds t - requested_amount p).
Proof.
  intros Hstep Ht Ht'.
  invert_step Hstep; lookup_cases; simpl in *;
    repeat match goal with
    | H1 : ?l = Some ?x, H2 : ?l = Some ?y |- _ =>
        assert (x = y) as -> by congruence; clear H1
    end;
    try congruence;
    repeat match goal with
    | H : (_ =? _) = true |- _ => apply N.eqb_eq in H
    | H : (_ <? _) = true |- _ => apply N.ltb_lt in H
    end;
    first [ left; reflexivity
          | right; left; do 2 eexists; split; reflexivity
          | right; right; do 3 eexists;
            split; [reflexivity|]; split; [eassumption|];
            repeat split; first [assumption | reflexivity] ].
Qed.

(** X12. Custody discipline on the recorded funds: a committed call
    leaves [total_funds] of a treasury as it was unless it is a deposit
    into that treasury, which adds the amount deposited, or the execution
    of a Funding proposal of that treasury whose yes-tally is above its
    no-tally, which subtracts the amount requested (never more than was
    recorded).  No other call moves it. *)
Theorem total_funds_custody cra now op s s' a t :
  step cra now op s = Ok s' ->
  treasuries s !! a = Some t ->
  exists t',
    treasuries s' !! a = Some t' /\
    (total_funds t' = total_funds t \/
     (exists account amount,
         op = DepositFunds account a amount /\
         total_funds t' = total_funds t + amount) \/
     (exists caller pid p,
         op = ExecuteProposal caller a pid /\
         proposals t !! pid = Some p /\
         category p = CATEGORY_FUNDING /\
         no_votes p < yes_votes p /\
         requested_amount p <= total_funds t /\
         total_funds t' = total_funds t - requested_amount p)).
Proof.
  intros Hstep Ht.
  destruct (treasury_persists _ _ _ _ _ _ _ Hstep Ht) as (t' & Ht').
  exists t'. split; [exact Ht'|].
  exact (total_funds_forward _ _ _ _ _ _ _ _ Hstep Ht Ht').
Qed.

Lemma total_funds_custody_witness :
  exists t t',
    treasuries passing_state !! 1001 = Some t /\
    treasuries (commit passing_state
                  (step example_resource_address 700000
                     (ExecuteProposal 2 1001 0) passing_state)) !! 1001 = Some t' /\
    total_funds t = 3000 /\
    (total_funds t' = total_funds t \/
     (exists account amount,
         ExecuteProposal 2 1001 0 = DepositFunds account 1001 amount /\
         total_funds t' = total_funds t + amount) \/
     (exists caller pid p,
         ExecuteProposal 2 1001 0 = ExecuteProposal caller 1001 pid /\
         proposals t !! pid = Some p /\
         category p = CATEGORY_FUNDING /\
         no_votes p < yes_votes p /\
         requested_amount p <= total_funds t /\
         total_funds t' = total_funds t - requested_amount p)).
Proof.
  edestruct (total_funds_custody example_resource_address 700000
               (ExecuteProposal 2 1001 0) passing_state
               (commit passing_state
                  (step example_resource_address 700000
                     (ExecuteProposal 2 1001 0) passing_state)) 1001)
    as (t' & Ht' & Hfunds).
  - evaluate.
  - evaluate.
  - eexists. exists t'. split; [evaluate|]. split; [exact Ht'|].
    split; [evaluate | exact Hfunds].
Defined.

Lemma governance_fields_forward cra now op s s' a t t' :
  step cra now op s = Ok s' ->
  treasuries s !! a = Some t ->
  treasuries s' !! a = Some t' ->
  admin t' = admin t /\
  governance_threshold t' = governance_threshold t /\
  treasury_signer_cap t' = treasury_signer_cap t /\
  proposal_count t <= proposal_count t' /\
  staked_tokens t <= staked_tokens t' /\
  (paused t' = paused t \/
   (op = EmergencyPause (admin t) a /\ paused t' = true) \/
   (op = EmergencyUnpause (admin t) a /\ paused t' = false)).
Proof.
  intros Hstep Ht Ht'.
  invert_step Hstep; lookup_cases; simpl in *;
    repeat match goal with
    | H1 : ?l = Some ?x, H2 : ?l = Some ?y |- _ =>
        assert (x = y) as -> by congruence; clear H1
    end;
    try congruence;
    repeat match goal with
    | H : (_ =? _) = true |- _ => apply N.eqb_eq in H; try subst
    end;
    repeat split;
    first [ reflexivity | lia | apply N.le_add_r
          | left; reflexivity
          | right; left; split; reflexivity
          | right; right; split; reflexivity ].
Qed.

(** X13. The governance settings of a treasury are out of reach of the
    calls: no committed call changes its admin, its proposal threshold or
    the account of its signer capability; the proposal counter and the
    staked total never go down; and the pause flag changes only through
    [emergency_pause] or [emergency_unpause] signed by the admin. *)
Theorem governance_fields_fixed cra now op s s' a t :
  step cra now op s = Ok s' ->
  treasuries s !! a = Some t ->
  exists t',
    treasuries s' !! a = Some t' /\
    admin t' = admin t /\
    governance_threshold t' = governance_threshold t /\
    treasury_signer_cap t' = treasury_signer_cap t /\
    proposal_count t <= proposal_count t' /\
    staked_tokens t <= staked_tokens t' /\
    (paused t' = paused t \/
     (op = EmergencyPause (admin t) a /\ paused t' = true) \/
     (op = EmergencyUnpause (admin t) a /\ paused t' = false)).
Proof.
  intros Hstep Ht.
  destruct (treasury_persists _ _ _ _ _ _ _ Hstep Ht) as (t' & Ht').
  exists t'. split; [exact Ht'|].
  exact (governance_fields_forward _ _ _ _ _ _ _ _ Hstep Ht Ht').
Qed.

Lemma governance_fields_fixed_witness :
  exists t t',
    treasuries passing_state !! 1001 = Some t /\
    treasuries (commit passing_state
                  (step example_resource_address 30
                     (EmergencyPause 1 1001) passing_state)) !! 1001 = Some t' /\
    admin t = 1 /\ admin t' = admin t /\ paused t = false.
Proof.
  edestruct (governance_fields_fixed example_resource_address 30
               (EmergencyPause 1 1001) passing_state
               (commit passing_state
                  (step example_resource_address 30
                     (EmergencyPause 1 1001) passing_state)) 1001)
    as (t' & Ht' & Hadmin & _).
  - evaluate.
  - evaluate.
  - eexists. exists t'. split; [evaluate|]. split; [exact Ht'|].
    split; [evaluate|]. split; [exact Hadmin | evaluate].
Defined.

(** ** The admin *)

(** X14. The three admin calls check the signer against the admin of the
    treasury they are given: signed by anyone else, [emergency_pause],
    [emergency_unpause] and [distribute_tokens] abort with
    [E_NOT_AUTHORIZED] (the last one even when the recipient is no
    member), and the storage stays as it was. *)
Theorem admin_calls_refused cra now account a t s :
  treasuries s !! a = Some t ->
  account <> admin t ->
  step cra now (EmergencyPause account a) s = Err (Abort E_NOT_AUTHORIZED) /\
  step cra now (EmergencyUnpause account a) s = Err (Abort E_NOT_AUTHORIZED) /\
  (forall recipient amount reason,
      step cra now (DistributeTokens account a recipient amount reason) s
        = Err (Abort E_NOT_AUTHORIZED)) /\
  (forall op,
      op = EmergencyPause account a \/ op = EmergencyUnpause account a \/
      (exists recipient amount reason,
          op = DistributeTokens account a recipient amount reason) ->
      commit s (step cra now op s) = s).
Proof.
  intros Ht Hne. apply N.eqb_neq in Hne.
  assert (step cra now (EmergencyPause account a) s = Err (Abort E_NOT_AUTHORIZED))
    as Hpause
    by (simpl; unfold emergency_pause; rewrite (borrow_global_ok _ _ _ Ht); simpl;
        rewrite Hne; reflexivity).
  assert (step cra now (EmergencyUnpause account a) s = Err (Abort E_NOT_AUTHORIZED))
    as Hunpause
    by (simpl; unfold emergency_unpause; rewrite (borrow_global_ok _ _ _ Ht); simpl;
        rewrite Hne; reflexivity).
  assert (forall recipient amount reason,
             step cra now (DistributeTokens account a recipient amount reason) s
             = Err (Abort E_NOT_AUTHORIZED)) as Hdistribute
    by (intros; simpl; unfold distribute_tokens;
        rewrite (borrow_global_ok _ _ _ Ht); simpl; rewrite Hne; reflexivity).
  split; [exact Hpause|]. split; [exact Hunpause|]. split; [exact Hdistribute|].
  intros op [-> | [-> | (recipient & amount & reason & ->)]].
  - rewrite Hpause. reflexivity.
  - rewrite Hunpause. reflexivity.
  - rewrite Hdistribute. reflexivity.
Qed.

Lemma admin_calls_refused_witness :
  step example_resource_address 30 (EmergencyPause 2 1001) passing_state
    = Err (Abort E_NOT_AUTHORIZED) /\
  step example_resource_address 30
    (DistributeTokens 2 1001 2 1000000 "self") passing_state
    = Err (Abort E_NOT_AUTHORIZED).
Proof.
  edestruct (admin_calls_refused example_resource_address 30 2 1001)
    with (s := passing_state) as (Hpause & _ & Hdistribute & _).
  - evaluate.
  - evaluate.
  - split; [exact Hpause | apply Hdistribute].
Defined.

(** X15. Pausing and unpausing is a round trip: when the admin pauses a
    running treasury and then unpauses it, both calls commit, the
    treasuries, the members and the coin stores are exactly what they
    were, and the log has grown by the PAUSE and the UNPAUSE event. *)
Theorem pause_unpause_round_trip a t s :
  treasuries s !! a = Some t ->
  paused t = false ->
  exists s1 s2,
    emergency_pause (admin t) a s = Ok s1 /\
    emergency_unpause (admin t) a s1 = Ok s2 /\
    (exists t1, treasuries s1 !! a = Some t1 /\ paused t1 = true) /\
    treasuries s2 = treasuries s /\
    members s2 = members s /\
    coin_store s2 = coin_store s /\
    events s2 = events s ++ [ EmergencyActionEvent (admin t) "PAUSE" true;
                              EmergencyActionEvent (admin t) "UNPAUSE" false ].
Proof.
  intros Ht Hrunning.
  do 2 eexists. split.
  { unfold emergency_pause. rewrite (borrow_global_ok _ _ _ Ht); simpl.
    rewrite N.eqb_refl; simpl. reflexivity. }
  split.
  { unfold emergency_unpause, borrow_global; simpl.
    rewrite lookup_insert_eq; simpl.
    rewrite N.eqb_refl; simpl. reflexivity. }
  simpl. split; [eexists; split; [apply lookup_insert_eq | reflexivity]|].
  split.
  { rewrite insert_insert_eq.
    replace (set_paused (set_paused t true) false) with t
      by (rewrite <- Hrunning; destruct t; reflexivity).
    apply insert_id. exact Ht. }
  split; [reflexivity|]. split; [reflexivity|].
  rewrite <- app_assoc. reflexivity.
Qed.

Lemma pause_unpause_round_trip_witness :
  exists s1 s2,
    emergency_pause 1 1001 passing_state = Ok s1 /\
    emergency_unpause 1 1001 s1 = Ok s2 /\
    treasuries s2 = treasuries passing_state.
Proof.
  edestruct (pause_unpause_round_trip 1001) with (s := passing_state)
    as (s1 & s2 & Hpause & Hunpause & _ & Hsame & _).
  - evaluate.
  - evaluate.
  - exists s1, s2. split; [exact Hpause|]. split; [exact Hunpause | exact Hsame].
Defined.

(** ** Joining and proposing *)

(** X16. Joining works exactly for accounts that are not members yet.  A
    new member reads back as 100 tokens, nothing staked, 100 earned, no
    proposals, no votes, reputation 10, with voting power 1; the
    treasuries, the coin stores, the log and the other members are
    untouched; and joining again aborts. *)
Theorem join_dao_round_trip account now s :
  (members s !! account = None <-> exists s', join_dao account now s = Ok s') /\
  (forall s',
      join_dao account now s = Ok s' ->
      get_member_info account s' = Ok (100, 0, 100, 0, 0, 10) /\
      get_voting_power account s' = Ok 1 /\
      (forall other, other <> account -> members s' !! other = members s !! other) /\
      treasuries s' = treasuries s /\
      coin_store s' = coin_store s /\
      events s' = events s /\
      forall now', join_dao account now' s' = Err RESOURCE_ALREADY_EXISTS).
Proof.
  split.
  - unfold join_dao, move_to. destruct (members s !! account); simpl.
    + split; [discriminate | intros [s' [=]]].
    + split; [eauto | reflexivity].
  - intros s' Hjoin. unfold join_dao in Hjoin. invert_ok. simpl.
    unfold get_member_info, get_voting_power, join_dao, move_to, borrow_global; simpl.
    rewrite !lookup_insert_eq; simpl.
    repeat split; try reflexivity.
    intros other Hne. rewrite lookup_insert_ne by congruence. reflexivity.
Qed.

(** X17. A proposal that has been created reads back through the views:
    it is stored under the old value of the proposal counter, with the
    title, category and amount given, empty tallies, status 0, not
    executed, the caller as proposer and a voting deadline of [now] plus
    the voting period of its category; the counter has advanced by one.
    Nothing is set aside for it: [total_funds] and the coin stores are as
    before. *)
Theorem create_investment_proposal_round_trip
    account now a title description category recipient requested_amount s s' t :
  treasuries s !! a = Some t ->
  create_investment_proposal account now a title description category recipient
    requested_amount s = Ok s' ->
  get_proposal_info a (proposal_count t) s'
    = Ok (title, category, requested_amount, 0, 0, 0,
          now + (if category =? 2 then 86400 else 604800), false, account) /\
  get_recipient_details a (proposal_count t) s' = Ok (recipient, requested_amount) /\
  get_treasury_info a s'
    = Ok (total_funds t, proposal_count t + 1, total_governance_tokens t,
          staked_tokens t, paused t, admin t) /\
  coin_store s' = coin_store s /\
  events s' = events s ++
    [ProposalCreatedEvent (proposal_count t) account title category requested_amount].
Proof.
  intros Ht Hcreate. unfold create_investment_proposal in Hcreate. invert_ok.
  all: repeat match goal with
         | H1 : ?l = Some ?x, H2 : ?l = Some ?y |- _ =>
             assert (x = y) as -> by congruence; clear H1
         end.
  all: unfold get_proposal_info, get_recipient_details, get_treasury_info,
         borrow_global, table_borrow; simpl.
  all: rewrite !lookup_insert_eq; simpl.
  all: rewrite !lookup_insert_eq; simpl.
  all: repeat split; reflexivity.
Qed.

Lemma create_investment_proposal_round_trip_witness :
  get_proposal_info 1001 1
    (commit passing_state
       (create_investment_proposal 1 50 1001 "Rules" "Change the rules" 2 1 5000
          passing_state))
  = Ok ("Rules", 2, 5000, 0, 0, 0, 50 + 86400, false, 1).
Proof.
  edestruct (create_investment_proposal_round_trip 1 50 1001 "Rules"
               "Change the rules" 2 1 5000 passing_state
               (commit passing_state
                  (create_investment_proposal 1 50 1001 "Rules" "Change the rules"
                     2 1 5000 passing_state)))
    as (Hinfo & _).
  - evaluate.
  - evaluate.
  - exact Hinfo.
Defined.



(** ** The outcome of an execution *)

(** X19. A committed execution decides by the quorum that the
    [calculate_quorum] view reports: the proposal was open and due; with
    fewer votes cast than the quorum it ends as QuorumNotMet (status 4,
    result 2), otherwise as Funded (status 1, result 0) when yes is above
    no and as Rejected (status 2, result 1) when it is not; [executed] is
    set; the event's amount is the requested amount for a Funded Funding
    proposal and 0 in every other case; no member record changes. *)
Theorem execute_proposal_outcome caller now a pid s s' t p :
  treasuries s !! a = Some t ->
  proposals t !! pid = Some p ->
  execute_proposal caller now a pid s = Ok s' ->
  exists quorum t' p',
    calculate_quorum a s = Ok quorum /\
    status p = 0 /\ executed p = false /\ execution_time p <= now /\
    treasuries s' !! a = Some t' /\
    proposals t' !! pid = Some p' /\
    executed p' = true /\
    status p' = (if yes_votes p + no_votes p <? quorum then 4
                 else if no_votes p <? yes_votes p then 1 else 2) /\
    events s' = events s ++
      [ProposalExecutedEvent pid
         (if yes_votes p + no_votes p <? quorum then 2
          else if no_votes p <? yes_votes p then 0 else 1)
         (if yes_votes p + no_votes p <? quorum then 0
          else if no_votes p <? yes_votes p
               then (if category p =? CATEGORY_FUNDING
                     then requested_amount p else 0)
               else 0)] /\
    members s' = members s.
Proof.
  intros Ht Hp Hexec. unfold execute_proposal in Hexec. invert_ok.
  all: repeat match goal with
         | H1 : ?l = Some ?x, H2 : ?l = Some ?y |- _ =>
             assert (x = y) as -> by congruence; clear H1
         end.
  all: match goal with
       | H : treasuries _ !! _ = Some ?tr |- _ =>
           exists (staked_tokens tr * QUORUM_PERCENTAGE / 100);
           do 2 eexists;
           (split;
            [ unfold calculate_quorum; rewrite (borrow_global_ok _ _ _ H); simpl;
              rewrite mul_u64_ok by assumption; reflexivity |])
       end.
  all: repeat match goal with
         | H : (status _ =? 0) = true |- _ => apply N.eqb_eq in H
         | H : negb (executed _) = true |- _ => apply negb_true_iff in H
         | H : (execution_time _ <=? _) = true |- _ => apply N.leb_le in H
         end.
  all: (split; [assumption|]); (split; [assumption|]); (split; [assumption|]).
  all: simpl; (split; [apply lookup_insert_eq|]); simpl.
  all: (split; [apply lookup_insert_eq|]); simpl.
  all: repeat match goal with
         | H : (_ <? _) = _ |- _ => rewrite H
         | H : (_ =? _) = _ |- _ => rewrite H
         end.
  all: repeat split; reflexivity.
Qed.

Lemma execute_proposal_outcome_witness :
  exists quorum,
    calculate_quorum 1001 below_quorum_state = Ok quorum /\
    quorum = 200 /\
    events (commit below_quorum_state
              (execute_proposal 2 700000 1001 0 below_quorum_state))
      = events below_quorum_state ++ [ProposalExecutedEvent 0 2 0].
Proof.
  edestruct (execute_proposal_outcome 2 700000 1001 0 below_quorum_state
               (commit below_quorum_state
                  (execute_proposal 2 700000 1001 0 below_quorum_state)))
    as (quorum & t' & p' & Hquorum & _ & _ & _ & _ & _ & _ & _ & Hevents & _).
  - evaluate.
  - evaluate.
  - evaluate.
  - assert (quorum = 200) as ->
      by (assert (Ok quorum = Ok 200) as [= ->]
            by (rewrite <- Hquorum; evaluate); reflexivity).
    exists 200. split; [exact Hquorum|]. split; [reflexivity|]. exact Hevents.
Defined.

(** ** Global accounts *)

Ltac learn_sum pf :=
  let T := type of pf in
  lazymatch goal with
  | _ : T |- _ => fail
  | _ => pose proof pf
  end.

(** Collects, for every map update in sight, how it changes the sum. *)
Ltac sum_facts :=
  repeat match goal with
  | H : ?m !! ?k = Some ?v0 |- context [sum_map ?f (<[?k := ?v]> ?m)] =>
      learn_sum (sum_map_insert_Some f m k v v0 H)
  | H : ?m !! ?k = Some ?v0, E : context [sum_map ?f (<[?k := ?v]> ?m)] |- _ =>
      learn_sum (sum_map_insert_Some f m k v v0 H)
  | H : ?m !! ?k = None |- context [sum_map ?f (<[?k := ?v]> ?m)] =>
      learn_sum (sum_map_insert_None f m k v H)
  end.




Lemma step_stakes_accounted cra now op s s' :
  step cra now op s = Ok s' -> stakes_accounted s -> stakes_accounted s'.
Proof.
  unfold stakes_accounted. intros Hstep IH.
  invert_step Hstep; sum_facts; unfold staked_of in *; simpl in *; lia.
Qed.

(** X21. In a reachable state the staked totals of the treasuries add up
    to the staked balances of the members: every staked token is counted
    in exactly one treasury's [staked_tokens], the one named when it was
    staked. *)
Theorem staked_tokens_accounted cra s :
  reachable cra s ->
  sum_map staked_tokens (treasuries s) = sum_map staked_of (members s).
Proof.
  induction 1 as [s [Hts Hms] | s s' now op _ IH Hs].
  - rewrite Hts, Hms, !sum_map_empty. reflexivity.
  - exact (step_stakes_accounted _ _ _ _ _ Hs IH).
Qed.

Lemma staked_tokens_accounted_witness :
  sum_map staked_tokens (treasuries passing_state) = 389 /\
  sum_map staked_tokens (treasuries passing_state)
    = sum_map staked_of (members passing_state).
Proof.
  split; [evaluate|].
  apply (staked_tokens_accounted example_resource_address).
  apply play_reachable, example_genesis_is_genesis.
Defined.

(** X22. The tokens in members' hands change only by what a call hands
    out: over a committed call the sum of all members' balance plus stake
    grows by 500,000 for [initialize_dao], 100 for [join_dao], 10 for a
    vote and [amount] for [distribute_tokens], and stays the same for
    every other call; a transfer in particular moves tokens without
    creating or destroying any. *)
Theorem tokens_issued cra now op s s' :
  step cra now op s = Ok s' ->
  sum_map holdings (members s') = sum_map holdings (members s) + issued op.
Proof.
  intros Hstep.
  invert_step Hstep; sum_facts; unfold holdings, INITIAL_TOKEN_SUPPLY, PARTICIPATION_REWARD in *;
    simpl in *;
    try change (1000000 / 2) with 500000 in *; lia.
Qed.

Lemma tokens_issued_witness :
  sum_map holdings
    (members (commit passing_state
                (step example_resource_address 30 (TransferTokens 1 2 250)
                   passing_state)))
  = sum_map holdings (members passing_state) + 0.
Proof.
  apply (tokens_issued example_resource_address 30 (TransferTokens 1 2 250)
           passing_state).
  evaluate.
Defined.

(** X23. No call creates or destroys coins: over a committed call the sum
    of all coin-store balances is unchanged; deposits and executions only
    move coins between stores. *)
Theorem coins_conserved cra now op s s' :
  step cra now op s = Ok s' ->
  sum_map (fun c => c) (coin_store s') = sum_map (fun c => c) (coin_store s).
Proof.
  intros Hstep.
  invert_step Hstep; unfold coin_register;
    repeat match goal with
    | |- context [match ?l with Some _ => _ | None => _ end] => destruct l eqn:?
    end;
    sum_facts; simpl in *; lia.
Qed.

Lemma coins_conserved_witness :
  sum_map (fun c => c)
    (coin_store (commit passing_state
                   (step example_resource_address 700000
                      (ExecuteProposal 2 1001 0) passing_state)))
  = sum_map (fun c => c) (coin_store passing_state).
Proof.
  apply (coins_conserved example_resource_address 700000
           (ExecuteProposal 2 1001 0) passing_state).
  evaluate.
Defined.

(** ** Transfers *)

(** X24. The edges of [transfer_tokens], for a sender who is a member: an
    amount above the sender's balance aborts with [E_INSUFFICIENT_TOKENS];
    an affordable transfer to an account that is no member aborts with
    the missing-resource abort (no record is created for the recipient);
    an affordable transfer to oneself commits and leaves the storage
    exactly as it was; and a committed transfer emits no event and touches
    neither treasuries nor coin stores. *)
Theorem transfer_tokens_edges account recipient amount s m :
  members s !! account = Some m ->
  (balance (governance_tokens m) < amount ->
   transfer_tokens account recipient amount s = Err (Abort E_INSUFFICIENT_TOKENS)) /\
  (amount <= balance (governance_tokens m) ->
   recipient <> account -> members s !! recipient = None ->
   transfer_tokens account recipient amount s = Err MISSING_DATA) /\
  (amount <= balance (governance_tokens m) ->
   balance (governance_tokens m) <= MAX_U64 ->
   transfer_tokens account account amount s = Ok s) /\
  (forall s',
      transfer_tokens account recipient amount s = Ok s' ->
      events s' = events s /\ treasuries s' = treasuries s /\
      coin_store s' = coin_store s).
Proof.
  intros Hm. split; [|split; [|split]].
  - intros Hshort. unfold transfer_tokens.
    rewrite (borrow_global_ok _ _ _ Hm); simpl.
    apply N.leb_gt in Hshort. rewrite Hshort. reflexivity.
  - intros Hle Hne Hnone. unfold transfer_tokens.
    rewrite (borrow_global_ok _ _ _ Hm); simpl.
    rewrite (sub_u64_ok _ _ Hle).
    apply N.leb_le in Hle. rewrite Hle; simpl.
    unfold borrow_global. rewrite lookup_insert_ne by congruence.
    rewrite Hnone. reflexivity.
  - intros Hle Hfit. unfold transfer_tokens.
    rewrite (borrow_global_ok _ _ _ Hm); simpl.
    rewrite (sub_u64_ok _ _ Hle).
    pose proof Hle as Hle'. apply N.leb_le in Hle'. rewrite Hle'; simpl.
    unfold borrow_global. rewrite lookup_insert_eq; simpl.
    rewrite add_u64_ok by (simpl; lia). simpl.
    rewrite insert_insert_eq.
    replace (balance (governance_tokens m) - amount + amount)
      with (balance (governance_tokens m)) by lia.
    replace (set_governance_tokens _ _) with m
      by (destruct m as [[? ? ? ?] ? ? ? ?]; reflexivity).
    rewrite insert_id by exact Hm.
    destruct s; reflexivity.
  - intros s' Hok. unfold transfer_tokens in Hok. invert_ok. simpl. auto.
Qed.

Lemma transfer_tokens_edges_witness :
  transfer_tokens 2 1 12 passing_state = Err (Abort E_INSUFFICIENT_TOKENS) /\
  transfer_tokens 2 7 5 passing_state = Err MISSING_DATA /\
  transfer_tokens 2 2 5 passing_state = Ok passing_state.
Proof.
  split; [|split].
  - edestruct (transfer_tokens_edges 2 1 12 passing_state) as (Hshort & _).
    + evaluate.
    + apply Hshort. evaluate.
  - edestruct (transfer_tokens_edges 2 7 5 passing_state) as (_ & Hmissing & _).
    + evaluate.
    + apply Hmissing; evaluate.
  - edestruct (transfer_tokens_edges 2 2 5 passing_state) as (_ & _ & Hself & _).
    + evaluate.
    + apply Hself; evaluate.
Defined.

(** ** The client's labels *)

(** X25. The client's labels fit what the module stores: for a proposal
    of a reachable state, [getProposalStatusString] of its status is
    "Open", "Funded", "Rejected" or "Quorum Not Met" exactly for status
    0, 1, 2 and 4, is never "Executed", and is "Open" exactly when the
    proposal has not been executed; [getCategoryString] of its category is
    "Funding", "Governance" or "Emergency" exactly for category 0, 1
    and 2.  The default branches are never what decides. *)
Theorem client_labels_fit cra s a t pid p :
  reachable cra s ->
  treasuries s !! a = Some t ->
  proposals t !! pid = Some p ->
  (getProposalStatusString (status p) = "Open" <-> status p = 0) /\
  (getProposalStatusString (status p) = "Funded" <-> status p = 1) /\
  (getProposalStatusString (status p) = "Rejected" <-> status p = 2) /\
  (getProposalStatusString (status p) = "Quorum Not Met" <-> status p = 4) /\
  getProposalStatusString (status p) <> "Executed" /\
  (getProposalStatusString (status p) = "Open" <-> executed p = false) /\
  (getCategoryString (category p) = "Funding" <-> category p = 0) /\
  (getCategoryString (category p) = "Governance" <-> category p = 1) /\
  (getCategoryString (category p) = "Emergency" <-> category p = 2).
Proof.
  intros Hreach Ht Hp.
  destruct (reachable_proposal_lifecycle cra s a t pid p Hreach Ht Hp)
    as [Hstatus Hexecuted].
  destruct (reachable_proposal_as_created cra s a t pid p Hreach Ht Hp)
    as (_ & Hcat & _).
  assert (category p = 0 \/ category p = 1 \/ category p = 2) as Hcats
    by (unfold CATEGORY_EMERGENCY in Hcat; lia).
  rewrite <- Hexecuted.
  destruct Hstatus as [-> | [-> | [-> | ->]]];
    destruct Hcats as [-> | [-> | ->]];
    simpl; repeat split; intros; first [reflexivity | discriminate].
Qed.

Lemma client_labels_fit_witness :
  exists t p,
    treasuries executed_state !! 1001 = Some t /\
    proposals t !! 0 = Some p /\
    getProposalStatusString (status p) = "Rejected" /\
    getCategoryString (category p) = "Funding".
Proof.
  do 2 eexists. split; [evaluate|]. split; [evaluate|].
  edestruct (client_labels_fit example_resource_address executed_state 1001)
    with (pid := 0) as (_ & _ & Hrejected & _ & _ & _ & Hfunding & _).
  - apply play_reachable, example_genesis_is_genesis.
  - evaluate.
  - evaluate.
  - split; [apply Hrejected; evaluate | apply Hfunding; evaluate].
Defined.

(** ** Founding and staking *)


(** X27. Staking buys voting power: when [stake_tokens] commits, the
    staker's balance goes down and the stake goes up by [amount], the
    reputation goes up by [amount / 100], the treasury's staked total goes
    up by [amount], and the voting power that the view reports afterwards
    is at least the power before plus [amount]. *)
Theorem stake_tokens_power account a amount s s' m :
  members s !! account = Some m ->
  stake_tokens account a amount s = Ok s' ->
  exists m',
    members s' !! account = Some m' /\
    balance (governance_tokens m') + amount = balance (governance_tokens m) /\
    staked_balance (governance_tokens m')
      = staked_balance (governance_tokens m) + amount /\
    reputation_score m' = reputation_score m + amount / 100 /\
    (forall power power',
        get_voting_power account s = Ok power ->
        get_voting_power account s' = Ok power' ->
        power + amount <= power') /\
    events s' = events s ++ [TokensStakedEvent account amount].
Proof.
  intros Hm Hstake. unfold stake_tokens in Hstake. invert_ok. same_lookups.
  simpl. eexists. split; [apply lookup_insert_eq|]. simpl.
  split; [lia|]. split; [reflexivity|]. split; [reflexivity|].
  split; [|reflexivity].
  intros power power' Hpower Hpower'.
  unfold get_voting_power, borrow_global in Hpower, Hpower'. simpl in Hpower'.
  rewrite lookup_insert_eq in Hpower'. simpl in Hpower'.
  match goal with
  | H : members s !! account = Some ?x |- _ => rewrite H in Hpower
  end.
  simpl in Hpower.
  apply add_u64_Ok_inv in Hpower. apply add_u64_Ok_inv in Hpower'.
  destruct Hpower as [-> _]. destruct Hpower' as [-> _].
  match goal with
  | |- ?sb + ?r / 10 + amount <= ?sb + amount + (?r + ?d) / 10 =>
      assert (r / 10 <= (r + d) / 10)
        by (apply N.Div0.div_le_mono; apply N.le_add_r);
      generalize dependent (r / 10); generalize dependent ((r + d) / 10);
      intros; lia
  end.
Qed.

Lemma stake_tokens_power_witness :
  exists m',
    members (commit passing_state (stake_tokens 1 1001 1000 passing_state)) !! 1
      = Some m' /\
    staked_balance (governance_tokens m') = 290 + 1000 /\
    reputation_score m' = 108 + 10.
Proof.
  edestruct (stake_tokens_power 1 1001 1000 passing_state
               (commit passing_state (stake_tokens 1 1001 1000 passing_state)))
    as (m' & Hm' & _ & Hstaked & Hrep & _).
  - evaluate.
  - evaluate.
  - exists m'. split; [exact Hm'|]. split; [exact Hstaked | exact Hrep].
Defined.
